(** * evernote2md: extraction, assembly and path naming

    A shallow embedding of [src/evernote2md/__main__.py]:
    the [EvernoteConverter] handlers ([convert_meta], [convert_div],
    [convert_img]), the assembly of an [EvernoteEntry] by [from_html], and
    the derived paths [markdown_directory] / [markdown_file].

    Third-party machinery that the program calls but does not contain
    (the generic markdownify conversion of other elements, [strptime],
    the time-zone database, [float]) is kept abstract: it appears as
    Section variables, so every result holds for any behaviour of those
    libraries that satisfies the stated hypotheses. *)

From stdpp Require Import base option list gmap sets strings.
From Stdlib Require Import NArith ZArith Ascii String DecimalString.
From Stdlib Require DecimalN.

Local Open Scope string_scope.
Local Open Scope list_scope.

#[local] Set Warnings "-clear-no-such-hyp".

(** ** Python strings

    A Python [str] is modelled by [string]; characters are the code points
    below 256. *)
Module PyStr.

(** [str.isspace] on one character (code points below 256): TAB..CR,
    FS..US, SPACE, NEL and NBSP. *)
Definition isspace (c : ascii) : bool :=
  let n := N_of_ascii c in
  (((9 <=? n) && (n <=? 13)) || ((28 <=? n) && (n <=? 32))
   || (n =? 133) || (n =? 160))%N.

Fixpoint lstrip (s : string) : string :=
  match s with
  | "" => ""
  | String c s' => if isspace c then lstrip s' else s
  end.

Fixpoint rstrip (s : string) : string :=
  match s with
  | "" => ""
  | String c s' =>
      match rstrip s' with
      | "" => if isspace c then "" else String c ""
      | r => String c r
      end
  end.

(** [s.strip()] *)
Definition strip (s : string) : string := rstrip (lstrip s).

(** [needle in hay] for two strings: substring test. *)
Fixpoint contains (needle hay : string) : bool :=
  String.prefix needle hay
  || match hay with
     | "" => false
     | String _ hay' => contains needle hay'
     end.

(** Truth value of a string: non-empty. *)
Definition truthy (s : string) : bool :=
  match s with "" => false | _ => true end.

(** Every character is white space (so [strip] leaves nothing). *)
Fixpoint blank (s : string) : bool :=
  match s with
  | "" => true
  | String c s' => isspace c && blank s'
  end.

End PyStr.

(** ** The parsed document (bs4 tree) *)

(** An attribute value is a string, or a list of strings for the
    multi-valued attributes ([class], ...). *)
Inductive attr_value : Type :=
| AStr (s : string)
| AList (l : list string).

#[global] Instance attr_value_eq_dec : EqDecision attr_value.
Proof. solve_decision. Defined.

(** A node of the tree: text, a comment or doctype (skipped by the
    traversal), or a tag with its attribute dictionary and children. *)
#[warnings="-register-all"]
Inductive PageElement : Type :=
| NavigableString (s : string)
| Comment (s : string)
| Tag (name : string) (attrs : gmap string attr_value)
      (children : list PageElement).

(** Induction principle that also gives the hypothesis for the children. *)
Section PageElement_induction.
Variable P : PageElement -> Prop.
Hypothesis P_string : forall s, P (NavigableString s).
Hypothesis P_comment : forall s, P (Comment s).
Hypothesis P_tag : forall name attrs children,
    Forall P children -> P (Tag name attrs children).

Fixpoint PageElement_ind' (el : PageElement) : P el :=
  match el with
  | NavigableString s => P_string s
  | Comment s => P_comment s
  | Tag name attrs children =>
      P_tag name attrs children
        ((fix all (l : list PageElement) : Forall P l :=
            match l with
            | [] => Forall_nil_2 P
            | x :: l' => Forall_cons_2 P x l' (PageElement_ind' x) (all l')
            end) children)
  end.
End PageElement_induction.

(** [el.get(key)]: the attribute, or [None]. *)
Definition get (el : PageElement) (key : string) : option attr_value :=
  match el with
  | Tag _ attrs _ => attrs !! key
  | _ => None
  end.

(** Python exceptions that occur in the modelled code. *)
Inductive exn : Type :=
| KeyError
| TimestampParseError   (* ValueError raised by [datetime.strptime] *)
| NumericParseError.    (* ValueError raised by [float] *)

#[global] Instance exn_eq_dec : EqDecision exn.
Proof. solve_decision. Defined.

Inductive result (A : Type) : Type :=
| Ok (a : A)
| Raise (e : exn).
Arguments Ok {A} a.
Arguments Raise {A} e.

(** Sequencing: the first exception raised propagates ([x ← m; k]). *)
#[global] Instance result_bind : MBind result := fun A B k m =>
  match m with
  | Ok a => k a
  | Raise e => Raise e
  end.

(** [el[key]]: the attribute, or [KeyError]. *)
Definition getitem (el : PageElement) (key : string) : result attr_value :=
  match get el key with
  | Some v => Ok v
  | None => Raise KeyError
  end.

(** [item in v] where [v] is an attribute value: list membership for a
    list, substring test for a string. *)
Definition py_in (item : string) (v : attr_value) : bool :=
  match v with
  | AList l => bool_decide (item ∈ l)
  | AStr s => PyStr.contains item s
  end.

(** [isinstance(el.get(key), str)], with the value when it holds. *)
Definition get_str (el : PageElement) (key : string) : option string :=
  match get el key with
  | Some (AStr s) => Some s
  | _ => None
  end.

(** ** EvernoteConverter *)
Module EvernoteConverter.

(** The instance state set up by [__init__] (field names as in the
    source, [latitide] included). *)
Record t : Type := mk {
  found_title : string;
  found_tags : gset string;
  time_created : string;
  time_updated : string;
  latitide : string;
  longitude : string;
  altitude : string;
  photos : list attr_value
}.

(** [__init__] *)
Definition init : t :=
  mk "" ∅ "" "" "" "" "" [].

Definition add_found_tag (c : string) (self : t) :=
  mk (found_title self) ({[c]} ∪ found_tags self) (time_created self)
    (time_updated self) (latitide self) (longitude self) (altitude self)
    (photos self).
Definition set_found_title (c : string) (self : t) :=
  mk c (found_tags self) (time_created self)
    (time_updated self) (latitide self) (longitude self) (altitude self)
    (photos self).
Definition set_time_created (c : string) (self : t) :=
  mk (found_title self) (found_tags self) c
    (time_updated self) (latitide self) (longitude self) (altitude self)
    (photos self).
Definition set_time_updated (c : string) (self : t) :=
  mk (found_title self) (found_tags self) (time_created self)
    c (latitide self) (longitude self) (altitude self)
    (photos self).
Definition set_latitide (c : string) (self : t) :=
  mk (found_title self) (found_tags self) (time_created self)
    (time_updated self) c (longitude self) (altitude self)
    (photos self).
Definition set_longitude (c : string) (self : t) :=
  mk (found_title self) (found_tags self) (time_created self)
    (time_updated self) (latitide self) c (altitude self)
    (photos self).
Definition set_altitude (c : string) (self : t) :=
  mk (found_title self) (found_tags self) (time_created self)
    (time_updated self) (latitide self) (longitude self) c
    (photos self).
Definition add_photo (v : attr_value) (self : t) :=
  mk (found_title self) (found_tags self) (time_created self)
    (time_updated self) (latitide self) (longitude self) (altitude self)
    (photos self ++ [v]).

(** [convert_meta]: returns the new instance state and the text. *)
Definition convert_meta (self : t) (el : PageElement)
    (text : string) (convert_as_inline : bool) : t * string :=
  match get_str el "itemprop", get_str el "content" with
  | Some item_property, Some content =>
      if decide (item_property = "tag") then (add_found_tag content self, "")
      else if decide (item_property = "title") then
        (set_found_title content self, "")
      else if decide (item_property = "created") then
        (set_time_created content self, "")
      else if decide (item_property = "updated") then
        (set_time_updated content self, "")
      else if decide (item_property = "latitude") then
        (set_latitide content self, "")
      else if decide (item_property = "longitude") then
        (set_longitude content self, "")
      else if decide (item_property = "altitude") then
        (set_altitude content self, "")
      else (self, "")
  | _, _ => (self, "")
  end.

(** [convert_div]: the [try] block looks the class up and tests
    membership; [KeyError] is swallowed. *)
Definition convert_div (self : t) (el : PageElement)
    (text : string) (convert_as_inline : bool) : t * string :=
  match getitem el "class" with
  | Ok cls =>
      if py_in "para" cls then (self, PyStr.strip text +:+ String "010" "")
      else (self, "")
  | Raise _ => (self, "")
  end.

(** *** The traversal of the markdownify engine

    [MarkdownConverter.convert] parses the text into a tree and runs
    [process_tag] on its root with [children_only=True]: the children of a
    node are converted first, from left to right, their texts are
    concatenated, and then the [convert_<name>] method of the node, if
    there is one, turns that text into the text of the node.  Comments and
    doctypes are skipped.

    The engine itself belongs to the library.  What it does on text nodes
    and on the elements that [EvernoteConverter] does not override is
    abstract here:
    - [process_text parents i s]: the text of the text node [s], the
      [i]-th child of [hd parents];
    - [base_convert parents el text inline]: what [MarkdownConverter]
      makes of the element [el] itself (its own [convert_<name>], or
      [text] unchanged when it has none); for an [img] element this is
      [super().convert_img];
    - [forces_inline name]: the element makes its children inline
      (headings and table cells). *)
Section Markdownify.

Variable process_text : list PageElement -> nat -> string -> string.
Variable base_convert :
  list PageElement -> PageElement -> string -> bool -> string.
Variable forces_inline : string -> bool.

(** [convert_img]: record the source if there is one, then defer to the
    base class. *)
Definition convert_img (parents : list PageElement)
    (self : t) (el : PageElement)
    (text : string) (convert_as_inline : bool) : t * string :=
  let self' :=
    match getitem el "src" with
    | Ok src => add_photo src self
    | Raise _ => self
    end in
  (self', base_convert parents el text convert_as_inline).

(** [getattr(self, 'convert_%s' % node.name, None)] and its call. *)
Definition convert_fn (name : string) (parents : list PageElement)
    (self : t) (el : PageElement)
    (text : string) (convert_as_inline : bool) : t * string :=
  if decide (name = "meta") then convert_meta self el text convert_as_inline
  else if decide (name = "div") then convert_div self el text convert_as_inline
  else if decide (name = "img") then
    convert_img parents self el text convert_as_inline
  else (self, base_convert parents el text convert_as_inline).

(** The loop over the children: [text += ...] for each of them. *)
Definition process_children
    (process : nat -> PageElement -> t ->
               t * string) :=
  fix go (i : nat) (children : list PageElement) (self : t)
      {struct children} : t * string :=
    match children with
    | [] => (self, "")
    | el :: rest =>
        let r1 := process i el self in
        let r2 := go (S i) rest r1.1 in
        (r2.1, r1.2 +:+ r2.2)
    end.

(** [process_tag] on the [i]-th child [el] of [hd parents]. *)
Fixpoint process_tag (parents : list PageElement) (convert_as_inline : bool)
    (i : nat) (el : PageElement) (self : t) {struct el}
    : t * string :=
  match el with
  | NavigableString s => (self, process_text parents i s)
  | Comment _ => (self, "")
  | Tag name attrs children =>
      let convert_children_as_inline :=
        convert_as_inline || forces_inline name in
      let r :=
        process_children
          (process_tag (el :: parents) convert_children_as_inline)
          0 children self in
      convert_fn name parents r.1 el r.2 convert_as_inline
  end.

(** The root of the tree built by the parser. *)
Definition BeautifulSoup (html : list PageElement) : PageElement :=
  Tag "[document]" ∅ html.

(** [data_parser.convert(html)] on a fresh [EvernoteConverter]: the final
    instance state and the converted text. *)
Definition convert (html : list PageElement) : t * string :=
  process_children (process_tag [BeautifulSoup html] false)
    0 html init.

End Markdownify.

End EvernoteConverter.

(** ** datetime and strftime *)

(** The time zone attached to an aware [datetime]: its offset from UTC in
    seconds and its abbreviation at that instant. *)
Record tz : Type := mkTz {
  utcoffset : Z;
  tzname : string
}.

(** A [datetime]: the local calendar fields, and the zone ([None] for a
    naive value). *)
Record datetime : Type := mkDatetime {
  year : N;
  month : N;
  day : N;
  hour : N;
  minute : N;
  second : N;
  microsecond : N;
  tzinfo : option tz
}.

(** [s.zfill(width)] for a string of digits. *)
Definition zfill (width : nat) (s : string) : string :=
  String.concat "" (replicate (width - String.length s) "0") +:+ s.

(** ["%0<width>d" % n] *)
Definition decimal (width : nat) (n : N) : string :=
  zfill width (NilEmpty.string_of_uint (N.to_uint n)).

(** [dt.tzname()], with the empty string for a naive value as [%Z] has
    it. *)
Definition zone_name (dt : datetime) : string :=
  match tzinfo dt with
  | Some z => tzname z
  | None => ""
  end.

(** One directive of [strftime].  Those that the program uses are
    interpreted; any other is left in place. *)
Definition directive (dt : datetime) (d : ascii) : string :=
  if decide (d = "Y"%char) then decimal 4 (year dt)
  else if decide (d = "m"%char) then decimal 2 (month dt)
  else if decide (d = "d"%char) then decimal 2 (day dt)
  else if decide (d = "H"%char) then decimal 2 (hour dt)
  else if decide (d = "M"%char) then decimal 2 (minute dt)
  else if decide (d = "S"%char) then decimal 2 (second dt)
  else if decide (d = "f"%char) then decimal 6 (microsecond dt)
  else if decide (d = "Z"%char) then zone_name dt
  else if decide (d = "%"%char) then "%"
  else String "%" (String d "").

(** [dt.strftime(format)] *)
Fixpoint strftime (dt : datetime) (format : string) : string :=
  match format with
  | "" => ""
  | String "%" (String d rest) => directive dt d +:+ strftime dt rest
  | String c rest => String c (strftime dt rest)
  end.

(** ** pathlib paths (POSIX flavour) *)
Module Path.

(** A path: its root (["" ], ["/"] or ["//"]) and its components. *)
Record t : Type := mk {
  root : string;
  parts : list string
}.

#[global] Instance eq_dec : EqDecision t.
Proof. solve_decision. Defined.

Fixpoint split (sep : ascii) (s : string) : list string :=
  match s with
  | "" => [""]
  | String c s' =>
      if decide (c = sep) then "" :: split sep s'
      else match split sep s' with
           | x :: xs => String c x :: xs
           | [] => [String c ""]
           end
  end.

Definition keep (part : string) : bool :=
  negb (bool_decide (part = "")) && negb (bool_decide (part = ".")).

Definition root_of (s : string) : string :=
  match s with
  | String "/" (String "/" (String "/" _)) => "/"
  | String "/" (String "/" _) => "//"
  | String "/" _ => "/"
  | _ => ""
  end.

(** [Path(s)]: empty and ["."] components are dropped. *)
Definition of_string (s : string) : t :=
  mk (root_of s) (filter (fun part => keep part = true) (split "/" s)).

(** [a / b]: a rooted right operand replaces the left one. *)
Definition truediv (a b : t) : t :=
  match root b with
  | "" => mk (root a) (parts a ++ parts b)
  | _ => b
  end.

(** [str(p)] *)
Definition to_string (p : t) : string :=
  match root p, parts p with
  | "", [] => "."
  | r, ps => r +:+ String.concat "/" ps
  end.

End Path.

(** ** EvernoteEntry *)

(** The timezone to use when presenting times. *)
Definition TIMEZONE : string := "Europe/London".

Module EvernoteEntry.

(** The fields of the named tuple; [float] is the type of Python
    floats. *)
Record t (float : Type) : Type := mk {
  title : string;
  text : string;
  tags : gset string;
  time_created : datetime;
  time_updated : datetime;
  latitude : option float;
  longitude : option float;
  altitude : option float;
  photos : list attr_value
}.
Arguments mk {float}.
Arguments title {float}.
Arguments text {float}.
Arguments tags {float}.
Arguments time_created {float}.
Arguments time_updated {float}.
Arguments latitude {float}.
Arguments longitude {float}.
Arguments altitude {float}.
Arguments photos {float}.

(** [markdown_directory] *)
Definition markdown_directory {float} (self : t float) : Path.t :=
  Path.of_string (strftime (time_created self) "%Y/%m/%d/").

(** [markdown_attachment_directory] *)
Definition markdown_attachment_directory {float} (self : t float) : Path.t :=
  Path.truediv (markdown_directory self) (Path.of_string "attachments").

(** [markdown_file] *)
Definition markdown_file {float} (self : t float) : Path.t :=
  Path.truediv (markdown_directory self)
    (Path.of_string
       (strftime (time_created self) "%Y-%m-%d-%H-%M-%S-%f-%Z.md")).

(** Assembly.  The library functions it calls are abstract:
    - [strptime s format]: the parsed aware [datetime], or [None] when
      [datetime.strptime] raises [ValueError];
    - [timezone name]: the zone object of the time-zone database;
    - [astimezone dt zone]: the same instant in [zone];
    - [float_of s]: [float(s)], or [None] when it raises [ValueError]. *)
Section Assembly.

Variable process_text : list PageElement -> nat -> string -> string.
Variable base_convert :
  list PageElement -> PageElement -> string -> bool -> string.
Variable forces_inline : string -> bool.

Variable float : Type.
Variable float_of : string -> option float.
Variable zone : Type.
Variable strptime : string -> string -> option datetime.
Variable timezone : string -> zone.
Variable astimezone : datetime -> zone -> datetime.

(** [datetime.strptime(raw, "%Y%m%dT%H%M%S%z").astimezone(timezone(TIMEZONE))] *)
Definition parse_time (raw : string) : result datetime :=
  match strptime raw "%Y%m%dT%H%M%S%z" with
  | Some parsed => Ok (astimezone parsed (timezone TIMEZONE))
  | None => Raise TimestampParseError
  end.

(** [float(raw) if raw else None] *)
Definition coordinate (raw : string) : result (option float) :=
  if PyStr.truthy raw then
    match float_of raw with
    | Some x => Ok (Some x)
    | None => Raise NumericParseError
    end
  else Ok None.

(** [from_html]: the arguments of the constructor are evaluated from
    left to right, so the first failing one decides the exception. *)
Definition from_html (html : list PageElement) : result (t float) :=
  let r :=
    EvernoteConverter.convert process_text base_convert forces_inline
      html in
  let data_parser := r.1 in
  let markdown := PyStr.strip r.2 in
  created ← parse_time (EvernoteConverter.time_created data_parser);
  updated ← parse_time (EvernoteConverter.time_updated data_parser);
  lat ← coordinate (EvernoteConverter.latitide data_parser);
  lon ← coordinate (EvernoteConverter.longitude data_parser);
  alt ← coordinate (EvernoteConverter.altitude data_parser);
  Ok (mk (EvernoteConverter.found_title data_parser) markdown
         (EvernoteConverter.found_tags data_parser) created updated
         lat lon alt (EvernoteConverter.photos data_parser)).

End Assembly.

Arguments parse_time {zone} strptime timezone astimezone raw.
Arguments coordinate {float} float_of raw.
Arguments from_html process_text base_convert forces_inline
  {float} float_of {zone} strptime timezone astimezone html.

End EvernoteEntry.

(** ** An instance of the libraries

    To run the program on concrete documents the abstract library
    functions need values.  This instance covers the inputs of the
    examples below: plain text without markup characters, timestamps in
    the wire format of the export ([YYYYMMDDTHHMMSS±HHMM]), decimal
    coordinates, and a display zone at a constant offset (GMT, which is
    what Europe/London observes in winter). *)
Module Reference.

(** Text without markup characters or runs of white space is kept as it
    is. *)
Definition process_text (parents : list PageElement) (i : nat)
    (s : string) : string := s.

Definition attr_text (el : PageElement) (key : string) : string :=
  match get el key with
  | Some (AStr s) => s
  | _ => ""
  end.

(** The image conversion of the base class, [![alt](src)] (or the
    alternative text alone when inline); other elements are
    transparent. *)
Definition base_convert (parents : list PageElement) (el : PageElement)
    (text : string) (convert_as_inline : bool) : string :=
  match el with
  | Tag name _ _ =>
      if decide (name = "img") then
        if convert_as_inline then attr_text el "alt"
        else "![" +:+ attr_text el "alt" +:+ "](" +:+ attr_text el "src"
             +:+ ")"
      else text
  | _ => text
  end.

(** Headings and table cells. *)
Definition forces_inline (name : string) : bool :=
  bool_decide (name ∈ ["h1"; "h2"; "h3"; "h4"; "h5"; "h6"; "td"; "th"]).

Definition digit (c : ascii) : option N :=
  let n := N_of_ascii c in
  if ((48 <=? n) && (n <=? 57))%N then Some (n - 48)%N else None.

Fixpoint digits (acc : N) (s : string) : option N :=
  match s with
  | "" => Some acc
  | String c s' =>
      match digit c with
      | Some d => digits (10 * acc + d)%N s'
      | None => None
      end
  end.

(** A non-empty string of decimal digits. *)
Definition number (s : string) : option N :=
  match s with
  | "" => None
  | _ => digits 0 s
  end.

(** Decimal literals [[+-]digits[.digits]], kept as exact rationals
    (numerator, power of ten of the denominator). *)
Definition float : Type := Z * nat.

Definition unsigned_float (s : string) : option float :=
  match Path.split "." s with
  | [whole] => n ← number whole; Some (Z.of_N n, 0)
  | [whole; frac] =>
      n ← number whole; f ← number frac;
      Some (Z.of_N (n * 10 ^ N.of_nat (String.length frac) + f),
            String.length frac)
  | _ => None
  end.

Definition float_of (s : string) : option float :=
  match s with
  | String "-" s' => x ← unsigned_float s'; Some (- x.1, x.2)%Z
  | String "+" s' => unsigned_float s'
  | _ => unsigned_float s
  end.

(** Days since 1970-01-01 of a civil date, and back. *)
Definition days_from_civil (y m d : Z) : Z :=
  let y' := if (m <=? 2)%Z then (y - 1)%Z else y in
  let era := (y' / 400)%Z in
  let yoe := (y' - era * 400)%Z in
  let mp := if (m >? 2)%Z then (m - 3)%Z else (m + 9)%Z in
  let doy := ((153 * mp + 2) / 5 + d - 1)%Z in
  let doe := (yoe * 365 + yoe / 4 - yoe / 100 + doy)%Z in
  (era * 146097 + doe - 719468)%Z.

Definition civil_from_days (z : Z) : Z * Z * Z :=
  let z' := (z + 719468)%Z in
  let era := (z' / 146097)%Z in
  let doe := (z' - era * 146097)%Z in
  let yoe := ((doe - doe / 1460 + doe / 36524 - doe / 146096) / 365)%Z in
  let doy := (doe - (365 * yoe + yoe / 4 - yoe / 100))%Z in
  let mp := ((5 * doy + 2) / 153)%Z in
  let d := (doy - (153 * mp + 2) / 5 + 1)%Z in
  let m := if (mp <? 10)%Z then (mp + 3)%Z else (mp - 9)%Z in
  let y := (yoe + era * 400)%Z in
  (if (m <=? 2)%Z then (y + 1)%Z else y, m, d).

Definition is_leap (y : N) : bool :=
  ((y mod 4 =? 0) && (negb (y mod 100 =? 0) || (y mod 400 =? 0)))%N.

Definition days_in_month (y m : N) : N :=
  if (m =? 2)%N then (if is_leap y then 29 else 28)%N
  else if bool_decide (m ∈ [4; 6; 9; 11]%N) then 30%N else 31%N.

Definition sign (c : ascii) : option Z :=
  if decide (c = "+"%char) then Some 1%Z
  else if decide (c = "-"%char) then Some (-1)%Z
  else None.

Definition offset_name (sgn : ascii) (hh mm : string) : string :=
  String.concat "" ["UTC"; String sgn ""; hh; ":"; mm].

(** The wire format of the export: eight digits, [T], six digits, a
    sign and four digits, with calendar fields in range. *)
Definition strptime (s format : string) : option datetime :=
  if negb (bool_decide (format = "%Y%m%dT%H%M%S%z")) then None
  else if negb (String.length s =? 20)%nat then None
  else
    y ← number (substring 0 4 s);
    mo ← number (substring 4 2 s);
    d ← number (substring 6 2 s);
    h ← number (substring 9 2 s);
    mi ← number (substring 11 2 s);
    sec ← number (substring 13 2 s);
    sg ← (c ← String.get 15 s; sign c);
    oh ← number (substring 16 2 s);
    om ← number (substring 18 2 s);
    if bool_decide (String.get 8 s = Some "T"%char)
       && (1 <=? y)%N && (1 <=? mo)%N && (mo <=? 12)%N
       && (1 <=? d)%N && (d <=? days_in_month y mo)%N
       && (h <? 24)%N && (mi <? 60)%N && (sec <? 60)%N && (om <? 60)%N
    then
      Some (mkDatetime y mo d h mi sec 0
              (Some (mkTz (sg * Z.of_N (oh * 3600 + om * 60))
                       (if (oh =? 0)%N && (om =? 0)%N then "UTC"
                        else offset_name (default "+"%char (String.get 15 s))
                               (substring 16 2 s) (substring 18 2 s)))))
    else None.

(** Zones at a constant offset. *)
Definition zone : Type := tz.

Definition timezone (name : string) : zone := mkTz 0 "GMT".

(** Seconds since the epoch (UTC) of the local fields of an aware
    value. *)
Definition timestamp (dt : datetime) : Z :=
  (days_from_civil (Z.of_N (year dt)) (Z.of_N (month dt)) (Z.of_N (day dt))
     * 86400
   + Z.of_N (hour dt) * 3600 + Z.of_N (minute dt) * 60 + Z.of_N (second dt)
   - match tzinfo dt with Some z => utcoffset z | None => 0 end)%Z.

Definition astimezone (dt : datetime) (z : zone) : datetime :=
  let local := (timestamp dt + utcoffset z)%Z in
  let '(y, m, d) := civil_from_days (local / 86400) in
  let rest := (local mod 86400)%Z in
  mkDatetime (Z.to_N y) (Z.to_N m) (Z.to_N d)
    (Z.to_N (rest / 3600)) (Z.to_N (rest mod 3600 / 60))
    (Z.to_N (rest mod 60)) (microsecond dt) (Some z).

(** [from_html] with these libraries. *)
Definition from_html : list PageElement -> result (EvernoteEntry.t float) :=
  EvernoteEntry.from_html process_text base_convert forces_inline
    float_of strptime timezone astimezone.

(** Builders for documents. *)
Definition meta (itemprop content : string) : PageElement :=
  Tag "meta" {[ "itemprop" := AStr itemprop; "content" := AStr content ]} [].

Definition div (classes : list string) (children : list PageElement)
    : PageElement :=
  Tag "div" {[ "class" := AList classes ]} children.

Definition para (s : string) : PageElement :=
  div ["para"] [NavigableString s].

(** Example documents. *)
Definition stamps : list PageElement :=
  [meta "created" "20230115T093000+0000";
   meta "updated" "20230116T103000+0100"].

Definition scenario_A : list PageElement :=
  meta "title" "Trip" :: para "Hello world" :: stamps.

Definition scenario_B : list PageElement :=
  meta "tag" "x" :: meta "tag" "x" :: stamps.

Definition scenario_C : list PageElement :=
  meta "latitude" "" :: stamps.

Definition scenario_E : list PageElement :=
  [meta "created" "not-a-date"; meta "updated" "20230115T093000+0000"].

Definition empty_tag : list PageElement :=
  meta "tag" "" :: stamps.

Definition two_titles : list PageElement :=
  [meta "title" "Draft"; meta "title" "Trip"].

Definition two_paragraphs : list PageElement :=
  para "  Hello world " :: meta "title" "Trip" :: para "second line"
  :: stamps.

Definition bad_latitude_bad_created : list PageElement :=
  [meta "created" "not-a-date"; meta "updated" "20230115T093000+0000";
   meta "latitude" "north"].

Definition bad_latitude : list PageElement :=
  meta "latitude" "north" :: stamps.

Definition loose_text : list PageElement :=
  NavigableString "hello" :: stamps.

Definition nested_para : PageElement :=
  Tag "div" ∅ [para "Hello"].

(** The elements that [base_convert] leaves alone. *)
Definition wrapper (name : string) : bool :=
  bool_decide (name ∈ ["html"; "head"; "body"]).

Definition wrapped : list PageElement :=
  [Tag "html" ∅
     [Tag "head" ∅ (NavigableString " " :: stamps);
      Tag "body" ∅ [Tag "div" ∅ [NavigableString "hidden"; para "Hello"]]]].

End Reference.

(** ** What a document holds, in traversal order

    The traversal converts the children of an element before the element
    itself, so an element is met after its descendants. *)

(** What the handlers record: a well-formed metadata marker, or the source
    of an image. *)
Inductive event : Type :=
| Marker (item_property content : string)
| Photo (src : attr_value).

(** The event of the element itself. *)
Definition own_events (el : PageElement) : list event :=
  match el with
  | Tag name _ _ =>
      if decide (name = "meta") then
        match get_str el "itemprop", get_str el "content" with
        | Some item_property, Some content => [Marker item_property content]
        | _, _ => []
        end
      else if decide (name = "img") then
        match get el "src" with
        | Some src => [Photo src]
        | None => []
        end
      else []
  | _ => []
  end.

Fixpoint events (el : PageElement) : list event :=
  match el with
  | Tag _ _ children => flat_map events children ++ own_events el
  | _ => []
  end.

Definition document_events (html : list PageElement) : list event :=
  flat_map events html.

(** The values of the markers with property [key], in traversal order. *)
Definition marker_values (key : string) (evs : list event) : list string :=
  omap (fun ev =>
          match ev with
          | Marker p c => if decide (p = key) then Some c else None
          | Photo _ => None
          end) evs.

(** The sources of the images, in traversal order. *)
Definition photo_sources (evs : list event) : list attr_value :=
  omap (fun ev => match ev with Photo v => Some v | Marker _ _ => None end) evs.

(** The values of the [tag] markers of a document. *)
Definition tag_values (html : list PageElement) : list string :=
  marker_values "tag" (document_events html).

(** The property names that are stored under a key of their own. *)
Definition field_keys : list string :=
  ["title"; "created"; "updated"; "latitude"; "longitude"; "altitude"].

(** The raw value stored for a key. *)
Definition stored (key : string) (self : EvernoteConverter.t) : string :=
  if decide (key = "title") then EvernoteConverter.found_title self
  else if decide (key = "created") then EvernoteConverter.time_created self
  else if decide (key = "updated") then EvernoteConverter.time_updated self
  else if decide (key = "latitude") then EvernoteConverter.latitide self
  else if decide (key = "longitude") then EvernoteConverter.longitude self
  else if decide (key = "altitude") then EvernoteConverter.altitude self
  else "".

(** The element carries the paragraph class marker: the test of
    [convert_div], with a missing class counting as no. *)
Definition has_para (el : PageElement) : bool :=
  match get el "class" with
  | Some cls => py_in "para" cls
  | None => false
  end.

(** The document has a paragraph-marked container somewhere. *)
Fixpoint para_container (el : PageElement) : bool :=
  match el with
  | Tag name _ children =>
      (bool_decide (name = "div") && has_para el)
      || existsb para_container children
  | _ => false
  end.

(** Nothing of the node reaches the text: white space, a comment, a
    metadata marker, a block without the paragraph marker (whatever it
    contains), or an element of a kind in [transparent] whose children are
    all of this form. *)
Fixpoint enclosed (transparent : string -> bool) (el : PageElement) : bool :=
  match el with
  | NavigableString s => PyStr.blank s
  | Comment _ => true
  | Tag name _ children =>
      if decide (name = "meta") then true
      else if decide (name = "div") then negb (has_para el)
      else if decide (name = "img") then false
      else transparent name && forallb (enclosed transparent) children
  end.

(** The update that [convert_meta] makes for a well-formed marker. *)
Definition store (item_property content : string)
    (self : EvernoteConverter.t) : EvernoteConverter.t :=
  if decide (item_property = "tag") then
    EvernoteConverter.add_found_tag content self
  else if decide (item_property = "title") then
    EvernoteConverter.set_found_title content self
  else if decide (item_property = "created") then
    EvernoteConverter.set_time_created content self
  else if decide (item_property = "updated") then
    EvernoteConverter.set_time_updated content self
  else if decide (item_property = "latitude") then
    EvernoteConverter.set_latitide content self
  else if decide (item_property = "longitude") then
    EvernoteConverter.set_longitude content self
  else if decide (item_property = "altitude") then
    EvernoteConverter.set_altitude content self
  else self.

Definition record (self : EvernoteConverter.t) (ev : event)
    : EvernoteConverter.t :=
  match ev with
  | Marker p c => store p c self
  | Photo v => EvernoteConverter.add_photo v self
  end.

(** The state after a sequence of events. *)
Definition replay (evs : list event) (self : EvernoteConverter.t)
    : EvernoteConverter.t :=
  foldl record self evs.

(** ** The driver: [export] and [main]

    The file system is abstract: [glob dir] is the sequence that
    [dir.glob("*.html")] yields, each file with its name and the content
    that [read_text] returns (as the tree the parser makes of it), and
    [is_dir] tells the directories.  Standard output is the list of the
    lines printed so far.  [repr] is the text that an f-string makes of
    the photo list. *)

(** How a run of [main] ends: it returns, [exit] is called, or an
    exception escapes. *)
Inductive outcome : Type :=
| Returned
| Exited (status : Z)
| Escaped (e : exn).

Section Driver.

Variable process_text : list PageElement -> nat -> string -> string.
Variable base_convert :
  list PageElement -> PageElement -> string -> bool -> string.
Variable forces_inline : string -> bool.
Variable float : Type.
Variable float_of : string -> option float.
Variable zone : Type.
Variable strptime : string -> string -> option datetime.
Variable timezone : string -> zone.
Variable astimezone : datetime -> zone -> datetime.
Variable repr : list attr_value -> string.
Variable glob : Path.t -> list (string * list PageElement).
Variable is_dir : Path.t -> bool.

(** The lines printed for one entry: the [Importing] line and, when the
    photo list is not empty, the line with the photos. *)
Definition report (entry : EvernoteEntry.t float) : list string :=
  ("Importing " +:+ EvernoteEntry.title entry +:+ " -> "
   +:+ Path.to_string (EvernoteEntry.markdown_file entry))
  :: match EvernoteEntry.photos entry with
     | [] => []
     | photos => [String "009" "" +:+ repr photos]
     end.

(** The loop of [export] over the files that are left; an exception of
    [from_html] ends it. *)
Fixpoint export_loop (sources : list (string * list PageElement))
    (stdout : list string) : list string * result unit :=
  match sources with
  | [] => (stdout, Ok tt)
  | source :: rest =>
      if negb (bool_decide (source.1 = "Evernote_index.html")) then
        match EvernoteEntry.from_html process_text base_convert
                forces_inline float_of strptime timezone astimezone
                source.2 with
        | Ok entry => export_loop rest (stdout ++ report entry)
        | Raise e => (stdout, Raise e)
        end
      else export_loop rest stdout
  end.

(** The note assembles, or the file is the index. *)
Definition importable (source : string * list PageElement) : Prop :=
  source.1 <> "Evernote_index.html" ->
  exists e : EvernoteEntry.t float,
    EvernoteEntry.from_html process_text base_convert forces_inline
      float_of strptime timezone astimezone source.2 = Ok e.

(** The lines that one file adds to the output. *)
Definition printed (source : string * list PageElement) : list string :=
  if bool_decide (source.1 = "Evernote_index.html") then []
  else match EvernoteEntry.from_html process_text base_convert
               forces_inline float_of strptime timezone astimezone
               source.2 with
       | Ok entry => report entry
       | Raise _ => []
       end.

(** [export] *)
Definition export (evernote daily : Path.t) (stdout : list string)
    : list string * result unit :=
  export_loop (glob evernote) stdout.

(** [main], with the two command line arguments that [get_args] returns. *)
Definition main (evernote_files target_directory : string)
    : list string * outcome :=
  let evernote := Path.of_string evernote_files in
  if negb (is_dir evernote) then
    (["Evernote source needs to be a directory"], Exited 1)
  else
    let daily := Path.of_string target_directory in
    if negb (is_dir daily) then
      (["The target needs to be an existing directory"], Exited 1)
    else
      match export evernote daily [] with
      | (stdout, Ok _) => (stdout, Returned)
      | (stdout, Raise e) => (stdout, Escaped e)
      end.

End Driver.

Arguments report {float} repr entry.
Arguments importable process_text base_convert forces_inline
  float float_of {zone} strptime timezone astimezone source.
Arguments printed process_text base_convert forces_inline
  {float} float_of {zone} strptime timezone astimezone repr source.
Arguments export_loop process_text base_convert forces_inline
  {float} float_of {zone} strptime timezone astimezone repr sources stdout.
Arguments export process_text base_convert forces_inline
  {float} float_of {zone} strptime timezone astimezone repr glob
  evernote daily stdout.
Arguments main process_text base_convert forces_inline
  {float} float_of {zone} strptime timezone astimezone repr glob is_dir
  evernote_files target_directory.

(** [el.contents]: the children of a tag. *)
Definition contents (el : PageElement) : list PageElement :=
  match el with
  | Tag _ _ children => children
  | _ => []
  end.

(** The last character of a string. *)
Fixpoint last_char (s : string) : option ascii :=
  match s with
  | "" => None
  | String c "" => Some c
  | String _ s' => last_char s'
  end.

(** No character of the string is [c]. *)
Fixpoint free_of (c : ascii) (s : string) : bool :=
  match s with
  | "" => true
  | String a s' => negb (bool_decide (a = c)) && free_of c s'
  end.

(** The string is made of decimal digits only. *)
Fixpoint all_digits (s : string) : bool :=
  match s with
  | "" => true
  | String a s' =>
      bool_decide (a ∈ ["0"; "1"; "2"; "3"; "4"; "5"; "6"; "7"; "8"; "9"]%char)
      && all_digits s'
  end.

(** A block element that carries the paragraph class marker. *)
Definition is_paragraph (el : PageElement) : bool :=
  match el with
  | Tag name _ _ => bool_decide (name = "div") && has_para el
  | _ => false
  end.

(** A node whose text is empty by the handlers of [EvernoteConverter]
    alone: a comment, a metadata marker, or a block element without the
    paragraph marker. *)
Definition silent (el : PageElement) : bool :=
  match el with
  | NavigableString _ => false
  | Comment _ => true
  | Tag name _ _ =>
      bool_decide (name = "meta")
      || (bool_decide (name = "div") && negb (has_para el))
  end.

(** The lines of a text: each followed by a line break. *)
Definition lines_text (lines : list string) : string :=
  foldr (fun line rest => (line +:+ String "010" "") +:+ rest) "" lines.

(** [int(s)] for a string of decimal digits. *)
Definition decimal_value (s : string) : option N :=
  option_map N.of_uint (NilEmpty.uint_of_string s).

(** Closes a decidable closed proposition by evaluation. *)
Ltac by_evaluation :=
  match goal with
  | |- ?P => refine (@bool_decide_unpack P _ _); vm_compute; exact I
  end.

(** * Properties *)

(** ** Strings *)

Lemma lstrip_blank s : PyStr.blank s = true -> PyStr.lstrip s = "".
Proof.
  induction s as [|c s IH]; simpl; [done|].
  intros [Hc Hs]%andb_prop. rewrite Hc. auto.
Qed.

Lemma strip_blank s : PyStr.blank s = true -> PyStr.strip s = "".
Proof. intros H. unfold PyStr.strip. by rewrite lstrip_blank. Qed.

Lemma blank_app s1 s2 :
  PyStr.blank (s1 +:+ s2) = PyStr.blank s1 && PyStr.blank s2.
Proof.
  induction s1 as [|c s1 IH]; [done|].
  change (String c s1 +:+ s2) with (String c (s1 +:+ s2)).
  simpl. rewrite IH. by rewrite andb_assoc.
Qed.

(** ** The handlers *)

Lemma get_str_None el key : get el key = None -> get_str el key = None.
Proof. unfold get_str. by intros ->. Qed.

Lemma convert_meta_store self el text inl p c :
  get_str el "itemprop" = Some p ->
  get_str el "content" = Some c ->
  EvernoteConverter.convert_meta self el text inl = (store p c self, "").
Proof.
  intros Hp Hc. unfold EvernoteConverter.convert_meta, store.
  rewrite Hp, Hc. by repeat case_decide.
Qed.

Lemma convert_meta_skip self el text inl :
  get_str el "itemprop" = None \/ get_str el "content" = None ->
  EvernoteConverter.convert_meta self el text inl = (self, "").
Proof.
  unfold EvernoteConverter.convert_meta. intros [H|H]; rewrite H; [done|].
  by destruct (get_str el "itemprop").
Qed.

Lemma convert_meta_text self el text inl :
  (EvernoteConverter.convert_meta self el text inl).2 = "".
Proof.
  unfold EvernoteConverter.convert_meta.
  destruct (get_str el "itemprop"), (get_str el "content");
    by repeat case_decide.
Qed.

Lemma convert_meta_events self name attrs children text inl :
  name = "meta" ->
  (EvernoteConverter.convert_meta self (Tag name attrs children) text inl).1
  = replay (own_events (Tag name attrs children)) self.
Proof.
  intros ->. unfold own_events. rewrite decide_True by done.
  destruct (get_str _ "itemprop") as [p|] eqn:Hp.
  - destruct (get_str _ "content") as [c|] eqn:Hc.
    + by erewrite convert_meta_store.
    + rewrite convert_meta_skip; auto.
  - rewrite convert_meta_skip; auto.
Qed.

Lemma convert_div_state self el text inl :
  (EvernoteConverter.convert_div self el text inl).1 = self.
Proof.
  unfold EvernoteConverter.convert_div.
  destruct (getitem el "class") as [cls|]; [|done].
  by destruct (py_in "para" cls).
Qed.

Lemma convert_div_para self el text inl :
  has_para el = true ->
  EvernoteConverter.convert_div self el text inl
  = (self, PyStr.strip text +:+ String "010" "").
Proof.
  unfold has_para, EvernoteConverter.convert_div, getitem.
  destruct (get el "class") as [cls|]; [|done]. by intros ->.
Qed.

Lemma convert_div_other self el text inl :
  has_para el = false ->
  EvernoteConverter.convert_div self el text inl = (self, "").
Proof.
  unfold has_para, EvernoteConverter.convert_div, getitem.
  destruct (get el "class") as [cls|]; [|done]. by intros ->.
Qed.

(** ** Replaying events *)

Lemma replay_app evs1 evs2 self :
  replay (evs1 ++ evs2) self = replay evs2 (replay evs1 self).
Proof. apply foldl_app. Qed.

Lemma replay_snoc evs ev self :
  replay (evs ++ [ev]) self = record (replay evs self) ev.
Proof. by rewrite replay_app. Qed.

Lemma marker_values_app key evs1 evs2 :
  marker_values key (evs1 ++ evs2)
  = marker_values key evs1 ++ marker_values key evs2.
Proof. apply omap_app. Qed.

Lemma photo_sources_app evs1 evs2 :
  photo_sources (evs1 ++ evs2) = photo_sources evs1 ++ photo_sources evs2.
Proof. apply omap_app. Qed.

Lemma record_found_tags self ev :
  EvernoteConverter.found_tags (record self ev)
  = list_to_set (marker_values "tag" [ev]) ∪ EvernoteConverter.found_tags self.
Proof.
  destruct ev as [p c|v]; simpl.
  - unfold store. case_decide; simpl.
    + by rewrite (right_id_L ∅ (∪)).
    + rewrite (left_id_L ∅ (∪)). by repeat case_decide.
  - by rewrite (left_id_L ∅ (∪)).
Qed.

Lemma replay_found_tags evs self :
  EvernoteConverter.found_tags (replay evs self)
  = EvernoteConverter.found_tags self ∪ list_to_set (marker_values "tag" evs).
Proof.
  induction evs as [|ev evs IH] using rev_ind.
  - simpl. set_solver.
  - rewrite replay_snoc, record_found_tags, IH, marker_values_app.
    rewrite list_to_set_app_L. set_solver.
Qed.

Lemma record_photos self ev :
  EvernoteConverter.photos (record self ev)
  = EvernoteConverter.photos self ++ photo_sources [ev].
Proof.
  destruct ev as [p c|v]; simpl; [|done].
  rewrite app_nil_r. unfold store. by repeat case_decide.
Qed.

Lemma replay_photos evs self :
  EvernoteConverter.photos (replay evs self)
  = EvernoteConverter.photos self ++ photo_sources evs.
Proof.
  induction evs as [|ev evs IH] using rev_ind.
  - simpl. by rewrite app_nil_r.
  - rewrite replay_snoc, record_photos, IH, photo_sources_app.
    by rewrite app_assoc.
Qed.

Lemma field_keys_cases key :
  key ∈ field_keys ->
  key = "title" \/ key = "created" \/ key = "updated"
  \/ key = "latitude" \/ key = "longitude" \/ key = "altitude".
Proof. unfold field_keys. set_solver. Qed.

Lemma record_stored key self ev :
  key ∈ field_keys ->
  stored key (record self ev)
  = default (stored key self) (last (marker_values key [ev])).
Proof.
  intros Hkey. destruct ev as [p c|v]; simpl; [|done].
  apply field_keys_cases in Hkey.
  destruct (decide (p = key)) as [->|Hne].
  - destruct Hkey as [->|[->|[->|[->|[->| ->]]]]]; reflexivity.
  - simpl. unfold store.
    destruct Hkey as [->|[->|[->|[->|[->| ->]]]]];
      repeat case_decide; subst; try done.
Qed.

Lemma replay_stored key evs self :
  key ∈ field_keys ->
  stored key (replay evs self)
  = default (stored key self) (last (marker_values key evs)).
Proof.
  intros Hkey. induction evs as [|ev evs IH] using rev_ind; [done|].
  rewrite replay_snoc, record_stored, IH, marker_values_app by done.
  destruct (marker_values key [ev]) as [|v l] eqn:Hev.
  - by rewrite app_nil_r.
  - destruct ev as [p c|?]; simpl in Hev; [|done].
    case_decide; simplify_eq. by rewrite last_snoc.
Qed.

(** ** The traversal *)
Section Traversal.

Variable process_text : list PageElement -> nat -> string -> string.
Variable base_convert :
  list PageElement -> PageElement -> string -> bool -> string.
Variable forces_inline : string -> bool.

Abbreviation process_tag :=
  (EvernoteConverter.process_tag process_text base_convert forces_inline).
Abbreviation convert_fn := (EvernoteConverter.convert_fn base_convert).
Abbreviation convert :=
  (EvernoteConverter.convert process_text base_convert forces_inline).

Lemma process_children_cons process i el rest self :
  EvernoteConverter.process_children process i (el :: rest) self
  = let r1 := process i el self in
    let r2 := EvernoteConverter.process_children process (S i) rest r1.1 in
    (r2.1, r1.2 +:+ r2.2).
Proof. reflexivity. Qed.

Lemma process_tag_Tag parents inl i name attrs children self :
  process_tag parents inl i (Tag name attrs children) self
  = let r :=
      EvernoteConverter.process_children
        (process_tag (Tag name attrs children :: parents)
           (inl || forces_inline name))
        0 children self in
    convert_fn name parents r.1 (Tag name attrs children) r.2 inl.
Proof. reflexivity. Qed.

(** The handler of an element records the events of that element. *)
Lemma convert_fn_state name attrs children parents self text inl :
  (convert_fn name parents self (Tag name attrs children) text inl).1
  = replay (own_events (Tag name attrs children)) self.
Proof.
  unfold EvernoteConverter.convert_fn.
  destruct (decide (name = "meta")) as [Hm|Hm].
  { by apply convert_meta_events. }
  unfold own_events. rewrite (decide_False _ _ Hm).
  destruct (decide (name = "div")) as [->|Hd].
  { by rewrite convert_div_state. }
  destruct (decide (name = "img")) as [->|Hi]; [|done].
  unfold EvernoteConverter.convert_img, getitem. simpl.
  by destruct (attrs !! "src").
Qed.

Lemma process_children_state parents inl children :
  Forall (fun el => forall parents inl i self,
              (process_tag parents inl i el self).1
              = replay (events el) self) children ->
  forall i self,
    (EvernoteConverter.process_children (process_tag parents inl)
       i children self).1
    = replay (flat_map events children) self.
Proof.
  induction 1 as [|el rest Hel _ IH]; intros i self; [done|].
  rewrite process_children_cons. simpl.
  by rewrite IH, Hel, replay_app.
Qed.

(** The state after the traversal of an element is the state before it
    with the events of the element replayed. *)
Lemma process_tag_state el :
  forall parents inl i self,
    (process_tag parents inl i el self).1 = replay (events el) self.
Proof.
  induction el as [s|s|name attrs children IH] using PageElement_ind';
    intros parents inl i self; [done..|].
  rewrite process_tag_Tag. cbv zeta.
  rewrite convert_fn_state. simpl events. rewrite replay_app.
  by rewrite (process_children_state _ _ _ IH).
Qed.

Lemma convert_state html :
  (convert html).1 = replay (document_events html) EvernoteConverter.init.
Proof.
  unfold EvernoteConverter.convert, document_events.
  apply process_children_state, Forall_forall.
  intros el _. apply process_tag_state.
Qed.

Lemma convert_found_tags html :
  EvernoteConverter.found_tags (convert html).1
  = list_to_set (tag_values html).
Proof.
  rewrite convert_state, replay_found_tags. simpl.
  by rewrite (left_id_L ∅ (∪)).
Qed.

Lemma convert_photos html :
  EvernoteConverter.photos (convert html).1
  = photo_sources (document_events html).
Proof. by rewrite convert_state, replay_photos. Qed.

Lemma convert_stored key html :
  key ∈ field_keys ->
  stored key (convert html).1
  = default "" (last (marker_values key (document_events html))).
Proof.
  intros Hkey. rewrite convert_state, replay_stored by done.
  apply field_keys_cases in Hkey.
  by destruct Hkey as [->|[->|[->|[->|[->| ->]]]]].
Qed.

End Traversal.

(** ** Assembly *)
Section Assembly_facts.

Variable process_text : list PageElement -> nat -> string -> string.
Variable base_convert :
  list PageElement -> PageElement -> string -> bool -> string.
Variable forces_inline : string -> bool.
Variable float : Type.
Variable float_of : string -> option float.
Variable zone : Type.
Variable strptime : string -> string -> option datetime.
Variable timezone : string -> zone.
Variable astimezone : datetime -> zone -> datetime.

Abbreviation convert :=
  (EvernoteConverter.convert process_text base_convert forces_inline).
Abbreviation parse_time :=
  (EvernoteEntry.parse_time strptime timezone astimezone).
Abbreviation coordinate := (EvernoteEntry.coordinate float_of).
Abbreviation from_html :=
  (EvernoteEntry.from_html process_text base_convert forces_inline
     float_of strptime timezone astimezone).

Lemma parse_time_Ok raw t :
  parse_time raw = Ok t <->
  exists parsed, strptime raw "%Y%m%dT%H%M%S%z" = Some parsed
                 /\ t = astimezone parsed (timezone TIMEZONE).
Proof.
  unfold EvernoteEntry.parse_time.
  destruct (strptime raw _) as [parsed|]; split.
  - intros [= <-]. eauto.
  - by intros (? & [= <-] & ->).
  - done.
  - by intros (? & ? & _).
Qed.

Lemma parse_time_Raise raw e :
  parse_time raw = Raise e <->
  strptime raw "%Y%m%dT%H%M%S%z" = None /\ e = TimestampParseError.
Proof.
  unfold EvernoteEntry.parse_time.
  destruct (strptime raw _); split.
  - done.
  - by intros [? _].
  - by intros [= <-].
  - by intros [_ ->].
Qed.

Lemma coordinate_empty : coordinate "" = Ok None.
Proof. reflexivity. Qed.

Lemma coordinate_number raw x :
  raw <> "" -> float_of raw = Some x -> coordinate raw = Ok (Some x).
Proof.
  intros Hne Hx. unfold EvernoteEntry.coordinate. rewrite Hx.
  by destruct raw.
Qed.

Lemma coordinate_not_number raw :
  raw <> "" -> float_of raw = None ->
  coordinate raw = Raise NumericParseError.
Proof.
  intros Hne Hx. unfold EvernoteEntry.coordinate. rewrite Hx.
  by destruct raw.
Qed.

Lemma coordinate_Raise raw e :
  coordinate raw = Raise e ->
  raw <> "" /\ float_of raw = None /\ e = NumericParseError.
Proof.
  unfold EvernoteEntry.coordinate. destruct raw as [|c raw]; [done|].
  simpl. destruct (float_of _); [done|]. by intros [= <-].
Qed.

Lemma coordinate_Ok raw v :
  coordinate raw = Ok v ->
  (raw = "" /\ v = None) \/ (raw <> "" /\ float_of raw = v /\ is_Some v).
Proof.
  unfold EvernoteEntry.coordinate. destruct raw as [|c raw].
  - intros [= <-]. by left.
  - simpl. destruct (float_of _) as [x|] eqn:Hx; [|done].
    intros [= <-]. right. eauto.
Qed.

(** [from_html], step by step. *)
Lemma from_html_unfold html :
  from_html html =
  let data_parser := (convert html).1 in
  match parse_time (EvernoteConverter.time_created data_parser) with
  | Raise e => Raise e
  | Ok created =>
  match parse_time (EvernoteConverter.time_updated data_parser) with
  | Raise e => Raise e
  | Ok updated =>
  match coordinate (EvernoteConverter.latitide data_parser) with
  | Raise e => Raise e
  | Ok lat =>
  match coordinate (EvernoteConverter.longitude data_parser) with
  | Raise e => Raise e
  | Ok lon =>
  match coordinate (EvernoteConverter.altitude data_parser) with
  | Raise e => Raise e
  | Ok alt =>
      Ok (EvernoteEntry.mk (EvernoteConverter.found_title data_parser)
            (PyStr.strip (convert html).2)
            (EvernoteConverter.found_tags data_parser)
            created updated lat lon alt
            (EvernoteConverter.photos data_parser))
  end end end end end.
Proof. reflexivity. Qed.

(** What an assembled entry is made of. *)
Lemma from_html_Ok html e :
  from_html html = Ok e <->
  let data_parser := (convert html).1 in
  exists created updated lat lon alt,
    parse_time (EvernoteConverter.time_created data_parser) = Ok created
    /\ parse_time (EvernoteConverter.time_updated data_parser) = Ok updated
    /\ coordinate (EvernoteConverter.latitide data_parser) = Ok lat
    /\ coordinate (EvernoteConverter.longitude data_parser) = Ok lon
    /\ coordinate (EvernoteConverter.altitude data_parser) = Ok alt
    /\ e = EvernoteEntry.mk (EvernoteConverter.found_title data_parser)
             (PyStr.strip (convert html).2)
             (EvernoteConverter.found_tags data_parser)
             created updated lat lon alt
             (EvernoteConverter.photos data_parser).
Proof.
  rewrite from_html_unfold. cbv zeta.
  generalize (convert html). intros r. split.
  - destruct (parse_time (EvernoteConverter.time_created r.1))
      as [created|]; [|done].
    destruct (parse_time (EvernoteConverter.time_updated r.1))
      as [updated|]; [|done].
    destruct (coordinate (EvernoteConverter.latitide r.1))
      as [lat|]; [|done].
    destruct (coordinate (EvernoteConverter.longitude r.1))
      as [lon|]; [|done].
    destruct (coordinate (EvernoteConverter.altitude r.1))
      as [alt|]; [|done].
    intros [= <-]. by exists created, updated, lat, lon, alt.
  - intros (created & updated & lat & lon & alt
            & -> & -> & -> & -> & -> & ->). done.
Qed.

(** The exception of a failed assembly is that of the first argument
    that fails. *)
Lemma from_html_timestamp_error html :
  from_html html = Raise TimestampParseError <->
  let data_parser := (convert html).1 in
  strptime (EvernoteConverter.time_created data_parser) "%Y%m%dT%H%M%S%z"
  = None
  \/ strptime (EvernoteConverter.time_updated data_parser) "%Y%m%dT%H%M%S%z"
     = None.
Proof.
  rewrite from_html_unfold. cbv zeta.
  generalize (convert html). intros r. split.
  - destruct (parse_time (EvernoteConverter.time_created r.1))
      as [created|e1] eqn:H1.
    2:{ apply parse_time_Raise in H1 as [? _]. auto. }
    destruct (parse_time (EvernoteConverter.time_updated r.1))
      as [updated|e2] eqn:H2.
    2:{ apply parse_time_Raise in H2 as [? _]. auto. }
    destruct (coordinate (EvernoteConverter.latitide r.1))
      as [lat|e3] eqn:H3.
    2:{ by apply coordinate_Raise in H3 as (_ & _ & ->). }
    destruct (coordinate (EvernoteConverter.longitude r.1))
      as [lon|e4] eqn:H4.
    2:{ by apply coordinate_Raise in H4 as (_ & _ & ->). }
    destruct (coordinate (EvernoteConverter.altitude r.1))
      as [alt|e5] eqn:H5.
    2:{ by apply coordinate_Raise in H5 as (_ & _ & ->). }
    done.
  - intros [H|H].
    + by rewrite (proj2 (parse_time_Raise _ _) (conj H eq_refl)).
    + destruct (parse_time (EvernoteConverter.time_created r.1))
        as [created|e1] eqn:H1.
      * by rewrite (proj2 (parse_time_Raise _ _) (conj H eq_refl)).
      * by apply parse_time_Raise in H1 as [_ ->].
Qed.

(** With both timestamps parsed, a failure is a numeric one, and it
    occurs exactly when some coordinate is non-empty and not a number. *)
Lemma from_html_numeric_error html created updated :
  let data_parser := (convert html).1 in
  strptime (EvernoteConverter.time_created data_parser) "%Y%m%dT%H%M%S%z"
  = Some created ->
  strptime (EvernoteConverter.time_updated data_parser) "%Y%m%dT%H%M%S%z"
  = Some updated ->
  (exists e, from_html html = Ok e
             /\ EvernoteEntry.time_created e
                = astimezone created (timezone TIMEZONE)
             /\ EvernoteEntry.time_updated e
                = astimezone updated (timezone TIMEZONE))
  \/ (from_html html = Raise NumericParseError
      /\ exists raw,
           raw ∈ [EvernoteConverter.latitide data_parser;
                  EvernoteConverter.longitude data_parser;
                  EvernoteConverter.altitude data_parser]
           /\ raw <> "" /\ float_of raw = None).
Proof.
  cbv zeta. rewrite from_html_unfold. cbv zeta.
  generalize (convert html). intros r Hc Hu.
  assert (parse_time (EvernoteConverter.time_created r.1)
          = Ok (astimezone created (timezone TIMEZONE))) as ->.
  { apply parse_time_Ok. eauto. }
  assert (parse_time (EvernoteConverter.time_updated r.1)
          = Ok (astimezone updated (timezone TIMEZONE))) as ->.
  { apply parse_time_Ok. eauto. }
  destruct (coordinate (EvernoteConverter.latitide r.1))
    as [lat|e3] eqn:H3.
  2:{ apply coordinate_Raise in H3 as (? & ? & ->).
      right. split; [done|].
      exists (EvernoteConverter.latitide r.1). set_solver. }
  destruct (coordinate (EvernoteConverter.longitude r.1))
    as [lon|e4] eqn:H4.
  2:{ apply coordinate_Raise in H4 as (? & ? & ->).
      right. split; [done|].
      exists (EvernoteConverter.longitude r.1). set_solver. }
  destruct (coordinate (EvernoteConverter.altitude r.1))
    as [alt|e5] eqn:H5.
  2:{ apply coordinate_Raise in H5 as (? & ? & ->).
      right. split; [done|].
      exists (EvernoteConverter.altitude r.1). set_solver. }
  left. eauto.
Qed.

End Assembly_facts.

(** ** The fields of an assembled entry *)
Section Entry_fields.

Variable process_text : list PageElement -> nat -> string -> string.
Variable base_convert :
  list PageElement -> PageElement -> string -> bool -> string.
Variable forces_inline : string -> bool.
Variable float : Type.
Variable float_of : string -> option float.
Variable zone : Type.
Variable strptime : string -> string -> option datetime.
Variable timezone : string -> zone.
Variable astimezone : datetime -> zone -> datetime.

Abbreviation convert' :=
  (EvernoteConverter.convert process_text base_convert forces_inline).
Abbreviation from_html' :=
  (EvernoteEntry.from_html process_text base_convert forces_inline
     float_of strptime timezone astimezone).

Lemma from_html_fields html e :
  from_html' html = Ok e ->
  let data_parser := (convert' html).1 in
  EvernoteEntry.title e = EvernoteConverter.found_title data_parser
  /\ EvernoteEntry.text e = PyStr.strip (convert' html).2
  /\ EvernoteEntry.tags e = EvernoteConverter.found_tags data_parser
  /\ EvernoteEntry.parse_time strptime timezone astimezone
       (EvernoteConverter.time_created data_parser)
     = Ok (EvernoteEntry.time_created e)
  /\ EvernoteEntry.parse_time strptime timezone astimezone
       (EvernoteConverter.time_updated data_parser)
     = Ok (EvernoteEntry.time_updated e)
  /\ EvernoteEntry.coordinate float_of
       (EvernoteConverter.latitide data_parser)
     = Ok (EvernoteEntry.latitude e)
  /\ EvernoteEntry.coordinate float_of
       (EvernoteConverter.longitude data_parser)
     = Ok (EvernoteEntry.longitude e)
  /\ EvernoteEntry.coordinate float_of
       (EvernoteConverter.altitude data_parser)
     = Ok (EvernoteEntry.altitude e)
  /\ EvernoteEntry.photos e = EvernoteConverter.photos data_parser.
Proof.
  intros (created & updated & lat & lon & alt
          & ? & ? & ? & ? & ? & ->)%from_html_Ok.
  cbv zeta. simpl. done.
Qed.

Lemma from_html_tags html e :
  from_html' html = Ok e ->
  EvernoteEntry.tags e = list_to_set (tag_values html).
Proof.
  intros (_ & _ & -> & _)%from_html_fields. apply convert_found_tags.
Qed.

End Entry_fields.

Lemma size_list_to_set_remove_dups (l : list string) :
  size (list_to_set (C:=gset string) l) = List.length (remove_dups l).
Proof.
  rewrite <- (size_list_to_set (C:=gset string) (remove_dups l))
    by apply NoDup_remove_dups.
  f_equal. apply set_eq. intros x.
  by rewrite !elem_of_list_to_set, elem_of_remove_dups.
Qed.

Lemma length_remove_dups_le (l : list string) :
  List.length (remove_dups l) <= List.length l.
Proof.
  induction l as [|x l IH]; simpl; [done|].
  case_decide; simpl; lia.
Qed.

(** ** Block elements *)
Section Blocks.

Variable process_text : list PageElement -> nat -> string -> string.
Variable base_convert :
  list PageElement -> PageElement -> string -> bool -> string.
Variable forces_inline : string -> bool.

Abbreviation process_tag' :=
  (EvernoteConverter.process_tag process_text base_convert forces_inline).

(** A block element: its state is the one left by its children, its text
    is decided by [convert_div]. *)
Lemma process_tag_div parents inl i attrs children self :
  process_tag' parents inl i (Tag "div" attrs children) self
  = EvernoteConverter.convert_div
      (EvernoteConverter.process_children
         (process_tag' (Tag "div" attrs children :: parents)
            (inl || forces_inline "div")) 0 children self).1
      (Tag "div" attrs children)
      (EvernoteConverter.process_children
         (process_tag' (Tag "div" attrs children :: parents)
            (inl || forces_inline "div")) 0 children self).2
      inl.
Proof. reflexivity. Qed.

Variable transparent : string -> bool.
Hypothesis process_text_blank :
  forall parents i s,
    PyStr.blank s = true -> PyStr.blank (process_text parents i s) = true.
Hypothesis base_convert_transparent :
  forall name parents attrs children text inl,
    transparent name = true ->
    base_convert parents (Tag name attrs children) text inl = text.

Lemma process_children_blank parents inl children :
  Forall (fun el => enclosed transparent el = true ->
                    forall parents inl i self,
                      PyStr.blank (process_tag' parents inl i el self).2
                      = true) children ->
  forallb (enclosed transparent) children = true ->
  forall i self,
    PyStr.blank
      (EvernoteConverter.process_children (process_tag' parents inl)
         i children self).2 = true.
Proof.
  induction 1 as [|el rest Hel _ IH]; intros Hall i self; [done|].
  simpl in Hall. apply andb_prop in Hall as [H1 H2].
  rewrite process_children_cons. simpl.
  rewrite blank_app, Hel, IH; done.
Qed.

Lemma process_tag_blank el :
  enclosed transparent el = true ->
  forall parents inl i self,
    PyStr.blank (process_tag' parents inl i el self).2 = true.
Proof.
  induction el as [s|s|name attrs children IH] using PageElement_ind';
    intros Hen parents inl i self.
  - by apply process_text_blank.
  - done.
  - rewrite process_tag_Tag. cbv zeta.
    unfold EvernoteConverter.convert_fn. simpl in Hen.
    destruct (decide (name = "meta")); [by rewrite convert_meta_text|].
    destruct (decide (name = "div")).
    { apply negb_true_iff in Hen. by rewrite convert_div_other. }
    destruct (decide (name = "img")); [done|].
    apply andb_prop in Hen as [Ht Hch]. simpl.
    rewrite base_convert_transparent by done.
    by apply process_children_blank.
Qed.

Lemma convert_blank html :
  forallb (enclosed transparent) html = true ->
  PyStr.blank
    (EvernoteConverter.convert process_text base_convert forces_inline
       html).2 = true.
Proof.
  intros Hall. apply process_children_blank; [|done].
  apply Forall_forall. intros el _. apply process_tag_blank.
Qed.

End Blocks.

(** * The claims *)

(** C8: a metadata marker that lacks its property-name attribute or its
    value attribute, or whose property name is none of tag, title,
    created, updated, latitude, longitude, altitude, leaves the converter
    state as it was and yields the empty text; and [convert_meta] yields
    the empty text for every element.  [convert_meta] is a total function
    here because nothing in its body can raise: both lookups are
    [el.get]. *)
Theorem convert_meta_ignores_malformed_markers :
  forall (self : EvernoteConverter.t) (el : PageElement)
         (text : string) (convert_as_inline : bool),
    (get el "itemprop" = None \/ get el "content" = None ->
     EvernoteConverter.convert_meta self el text convert_as_inline
     = (self, ""))
    /\ (forall p, get_str el "itemprop" = Some p ->
                  p ∉ "tag" :: field_keys ->
                  EvernoteConverter.convert_meta self el text convert_as_inline
                  = (self, ""))
    /\ (EvernoteConverter.convert_meta self el text convert_as_inline).2 = "".
Proof.
  intros self el text inl. split; [|split].
  - intros [H|H]; apply convert_meta_skip; auto using get_str_None.
  - intros p Hp Hnot. unfold EvernoteConverter.convert_meta. rewrite Hp.
    destruct (get_str el "content") as [c|]; [|done].
    unfold field_keys in Hnot.
    repeat case_decide; try done; subst; set_solver.
  - apply convert_meta_text.
Qed.

Lemma convert_meta_ignores_malformed_markers_witness :
  EvernoteConverter.convert_meta EvernoteConverter.init
    (Tag "meta" {[ "content" := AStr "x" ]} []) "" false
  = (EvernoteConverter.init, "")
  /\ EvernoteConverter.convert_meta EvernoteConverter.init
       (Reference.meta "author" "x") "" false
     = (EvernoteConverter.init, "").
Proof.
  split.
  - apply (proj1 (convert_meta_ignores_malformed_markers
                    EvernoteConverter.init
                    (Tag "meta" {[ "content" := AStr "x" ]} []) "" false)).
    left. reflexivity.
  - apply (proj1 (proj2 (convert_meta_ignores_malformed_markers
                           EvernoteConverter.init
                           (Reference.meta "author" "x") "" false))
             "author").
    + reflexivity.
    + apply (bool_decide_eq_false_1 _). vm_compute. reflexivity.
Defined.

(** C7: for an image element, the text is what the image conversion of the
    base class gives, whether or not the element has a source attribute;
    when it has one, its value is appended to the photo list, and
    otherwise the state is unchanged.  Over a whole document the photo
    list is the list of the sources of its images in the order in which
    the traversal meets them, repetitions kept. *)
Theorem convert_img_records_source_and_defers :
  forall (process_text : list PageElement -> nat -> string -> string)
         (base_convert :
            list PageElement -> PageElement -> string -> bool -> string)
         (forces_inline : string -> bool),
    (forall parents self el text convert_as_inline,
        let r := EvernoteConverter.convert_img base_convert parents self el
                   text convert_as_inline in
        r.2 = base_convert parents el text convert_as_inline
        /\ (forall src, get el "src" = Some src ->
                        r.1 = EvernoteConverter.add_photo src self
                        /\ EvernoteConverter.photos r.1
                           = EvernoteConverter.photos self ++ [src])
        /\ (get el "src" = None -> r.1 = self))
    /\ (forall html,
           EvernoteConverter.photos
             (EvernoteConverter.convert process_text base_convert
                forces_inline html).1
           = photo_sources (document_events html)).
Proof.
  intros process_text base_convert forces_inline. split.
  - intros parents self el text inl. cbv zeta.
    unfold EvernoteConverter.convert_img, getitem. simpl.
    split; [done|]. split.
    + by intros src ->.
    + by intros ->.
  - intros html. apply convert_photos.
Qed.

Lemma convert_img_records_source_and_defers_witness :
  EvernoteConverter.photos
    (EvernoteConverter.convert_img Reference.base_convert []
       EvernoteConverter.init
       (Tag "img" {[ "src" := AStr "a.png" ]} []) "" false).1
  = [AStr "a.png"].
Proof.
  apply (proj1 (proj2 (proj1 (convert_img_records_source_and_defers
                                Reference.process_text Reference.base_convert
                                Reference.forces_inline)
                         [] EvernoteConverter.init
                         (Tag "img" {[ "src" := AStr "a.png" ]} []) ""
                         false))
           (AStr "a.png")).
  reflexivity.
Defined.

(** C6: the tag set of the entry made from a document is the set of the
    values of its [tag] markers: a string belongs to it exactly when some
    [tag] marker has that value, its size is the number K of distinct
    values, which is at most the number N of markers, and two documents
    whose [tag] markers carry the same values, in whatever order and
    however often, give the same tag set. *)
Theorem tag_set_is_the_set_of_tag_values :
  forall (process_text : list PageElement -> nat -> string -> string)
         (base_convert :
            list PageElement -> PageElement -> string -> bool -> string)
         (forces_inline : string -> bool)
         (float : Type) (float_of : string -> option float)
         (zone : Type) (strptime : string -> string -> option datetime)
         (timezone : string -> zone)
         (astimezone : datetime -> zone -> datetime)
         (html : list PageElement) (e : EvernoteEntry.t float),
    EvernoteEntry.from_html process_text base_convert forces_inline
      float_of strptime timezone astimezone html = Ok e ->
    (forall x, x ∈ EvernoteEntry.tags e <-> x ∈ tag_values html)
    /\ size (EvernoteEntry.tags e) = List.length (remove_dups (tag_values html))
    /\ size (EvernoteEntry.tags e) <= List.length (tag_values html)
    /\ (forall html' e',
           EvernoteEntry.from_html process_text base_convert forces_inline
             float_of strptime timezone astimezone html' = Ok e' ->
           (forall x, x ∈ tag_values html' <-> x ∈ tag_values html) ->
           EvernoteEntry.tags e' = EvernoteEntry.tags e).
Proof.
  intros pt bc fi float float_of zone strptime timezone astimezone html e He.
  apply from_html_tags in He as Htags. rewrite Htags.
  split; [|split; [|split]].
  - intros x. apply elem_of_list_to_set.
  - apply size_list_to_set_remove_dups.
  - rewrite size_list_to_set_remove_dups. apply length_remove_dups_le.
  - intros html' e' He' Hsame. apply from_html_tags in He' as ->.
    apply set_eq. intros x. by rewrite !elem_of_list_to_set.
Qed.

(** Scenario B: two [tag] markers with value [x] give the tag set [{x}],
    of size 1. *)
Lemma tag_set_is_the_set_of_tag_values_witness :
  exists e,
    Reference.from_html Reference.scenario_B = Ok e
    /\ (forall x, x ∈ EvernoteEntry.tags e <-> x ∈ ["x"; "x"])
    /\ size (EvernoteEntry.tags e) = 1.
Proof.
  destruct (Reference.from_html Reference.scenario_B) as [e|x] eqn:He.
  - exists e. split; [reflexivity|].
    destruct (tag_set_is_the_set_of_tag_values
                Reference.process_text Reference.base_convert
                Reference.forces_inline _ Reference.float_of _
                Reference.strptime Reference.timezone Reference.astimezone
                Reference.scenario_B e He) as (Hin & Hsize & _).
    split; [exact Hin|]. rewrite Hsize. vm_compute. reflexivity.
  - vm_compute in He. discriminate He.
Defined.

(** C9: when a document has several well-formed markers with the same
    property name among title, created, updated, latitude, longitude and
    altitude, the raw value stored for that name is the value of the one
    that the traversal meets last, whatever the earlier ones were; the
    field of the entry is made from that value. *)
Theorem last_marker_wins :
  forall (process_text : list PageElement -> nat -> string -> string)
         (base_convert :
            list PageElement -> PageElement -> string -> bool -> string)
         (forces_inline : string -> bool)
         (float : Type) (float_of : string -> option float)
         (zone : Type) (strptime : string -> string -> option datetime)
         (timezone : string -> zone)
         (astimezone : datetime -> zone -> datetime)
         (html : list PageElement) (key : string)
         (earlier : list string) (v : string),
    key ∈ field_keys ->
    marker_values key (document_events html) = earlier ++ [v] ->
    stored key
      (EvernoteConverter.convert process_text base_convert forces_inline
         html).1 = v
    /\ forall e,
        EvernoteEntry.from_html process_text base_convert forces_inline
          float_of strptime timezone astimezone html = Ok e ->
        (key = "title" -> EvernoteEntry.title e = v)
        /\ (key = "created" ->
            EvernoteEntry.parse_time strptime timezone astimezone v
            = Ok (EvernoteEntry.time_created e))
        /\ (key = "updated" ->
            EvernoteEntry.parse_time strptime timezone astimezone v
            = Ok (EvernoteEntry.time_updated e))
        /\ (key = "latitude" ->
            EvernoteEntry.coordinate float_of v
            = Ok (EvernoteEntry.latitude e))
        /\ (key = "longitude" ->
            EvernoteEntry.coordinate float_of v
            = Ok (EvernoteEntry.longitude e))
        /\ (key = "altitude" ->
            EvernoteEntry.coordinate float_of v
            = Ok (EvernoteEntry.altitude e)).
Proof.
  intros pt bc fi float float_of zone strptime timezone astimezone
    html key earlier v Hkey Hlast.
  assert (stored key (EvernoteConverter.convert pt bc fi html).1 = v)
    as Hstored.
  { rewrite convert_stored, Hlast, last_snoc by done. done. }
  split; [done|].
  intros e (Ht & _ & _ & Hc & Hu & Hla & Hlo & Hal & _)%from_html_fields.
  repeat split; intros ->; unfold stored in Hstored; simpl in Hstored;
    by rewrite <- Hstored.
Qed.

Lemma last_marker_wins_witness :
  stored "title"
    (EvernoteConverter.convert Reference.process_text Reference.base_convert
       Reference.forces_inline Reference.two_titles).1
  = "Trip".
Proof.
  refine (proj1 (last_marker_wins
                   Reference.process_text Reference.base_convert
                   Reference.forces_inline _ Reference.float_of _
                   Reference.strptime Reference.timezone Reference.astimezone
                   Reference.two_titles "title" ["Draft"] "Trip" _ _)).
  - by_evaluation.
  - vm_compute. reflexivity.
Defined.

(** C10: a [tag] marker with the empty string as value puts the empty
    string into the tag set: the handler adds it, and the entry made from
    a document with such a marker has it among its tags; an empty
    coordinate, by contrast, is absent. *)
Theorem empty_tag_is_kept :
  (forall self el text convert_as_inline,
      get_str el "itemprop" = Some "tag" ->
      get_str el "content" = Some "" ->
      "" ∈ EvernoteConverter.found_tags
             (EvernoteConverter.convert_meta self el text
                convert_as_inline).1)
  /\ (forall (process_text : list PageElement -> nat -> string -> string)
            (base_convert :
               list PageElement -> PageElement -> string -> bool -> string)
            (forces_inline : string -> bool)
            (float : Type) (float_of : string -> option float)
            (zone : Type) (strptime : string -> string -> option datetime)
            (timezone : string -> zone)
            (astimezone : datetime -> zone -> datetime)
            (html : list PageElement) (e : EvernoteEntry.t float),
         EvernoteEntry.from_html process_text base_convert forces_inline
           float_of strptime timezone astimezone html = Ok e ->
         "" ∈ tag_values html ->
         "" ∈ EvernoteEntry.tags e)
  /\ (forall (float : Type) (float_of : string -> option float),
         EvernoteEntry.coordinate float_of "" = Ok None).
Proof.
  split; [|split].
  - intros self el text inl Hp Hc.
    rewrite (convert_meta_store _ _ _ _ _ _ Hp Hc). simpl. set_solver.
  - intros pt bc fi float float_of zone strptime timezone astimezone
      html e He Hin.
    apply from_html_tags in He as ->. by apply elem_of_list_to_set.
  - reflexivity.
Qed.

Lemma empty_tag_is_kept_witness :
  exists e,
    Reference.from_html Reference.empty_tag = Ok e
    /\ "" ∈ EvernoteEntry.tags e.
Proof.
  destruct (Reference.from_html Reference.empty_tag) as [e|x] eqn:He.
  - exists e. split; [reflexivity|].
    refine (proj1 (proj2 empty_tag_is_kept)
              Reference.process_text Reference.base_convert
              Reference.forces_inline _ Reference.float_of _
              Reference.strptime Reference.timezone Reference.astimezone
              Reference.empty_tag e He _).
    by_evaluation.
  - vm_compute in He. discriminate He.
Defined.








(** C4, as stated, fails: the text converted from the children of a block
    without the paragraph marker does not reach the output.  Here the
    inner paragraph alone converts to [Hello] and a line break, and the
    unmarked block around it converts to the empty text. *)
Lemma unmarked_block_discards_children_text :
  ~ (forall attrs children parents inl i self,
        has_para (Tag "div" attrs children) = false ->
        (EvernoteConverter.process_tag Reference.process_text
           Reference.base_convert Reference.forces_inline
           parents inl i (Tag "div" attrs children) self).2
        = (EvernoteConverter.process_children
             (EvernoteConverter.process_tag Reference.process_text
                Reference.base_convert Reference.forces_inline
                (Tag "div" attrs children :: parents)
                (inl || Reference.forces_inline "div"))
             0 children self).2).
Proof.
  intros H.
  specialize (H ∅ [Reference.para "Hello"] [] false 0
                EvernoteConverter.init eq_refl).
  vm_compute in H. discriminate H.
Qed.

(** C4, amended: a block element that carries the paragraph class marker
    yields the text converted from its children, stripped of leading and
    trailing white space and followed by one line break; a block element
    whose class lacks the marker, or that has no class attribute, yields
    the empty text whatever its children converted to.  In both cases the
    children have been traversed, so what they record in the converter
    state is kept. *)
Theorem block_text_by_paragraph_marker :
  forall (process_text : list PageElement -> nat -> string -> string)
         (base_convert :
            list PageElement -> PageElement -> string -> bool -> string)
         (forces_inline : string -> bool)
         parents convert_as_inline i attrs children self,
    let el := Tag "div" attrs children in
    let inner :=
      EvernoteConverter.process_children
        (EvernoteConverter.process_tag process_text base_convert
           forces_inline (el :: parents)
           (convert_as_inline || forces_inline "div"))
        0 children self in
    let r :=
      EvernoteConverter.process_tag process_text base_convert forces_inline
        parents convert_as_inline i el self in
    r.1 = inner.1
    /\ (has_para el = true ->
        r.2 = PyStr.strip inner.2 +:+ String "010" "")
    /\ (has_para el = false -> r.2 = "")
    /\ (get el "class" = None -> r.2 = "").
Proof.
  intros pt bc fi parents inl i attrs children self. cbv zeta.
  rewrite process_tag_div. split; [apply convert_div_state|].
  split; [|split].
  - intros Hp. by rewrite convert_div_para.
  - intros Hp. by rewrite convert_div_other.
  - intros Hc. rewrite convert_div_other; [done|].
    unfold has_para. by rewrite Hc.
Qed.

Lemma block_text_by_paragraph_marker_witness :
  (EvernoteConverter.process_tag Reference.process_text
     Reference.base_convert Reference.forces_inline [] false 0
     (Reference.div ["para"] [NavigableString "  Hello world "])
     EvernoteConverter.init).2
  = "Hello world" +:+ String "010" ""
  /\ (EvernoteConverter.process_tag Reference.process_text
        Reference.base_convert Reference.forces_inline [] false 0
        Reference.nested_para EvernoteConverter.init).2
     = "".
Proof.
  split.
  - apply (proj1 (proj2 (block_text_by_paragraph_marker
                           Reference.process_text Reference.base_convert
                           Reference.forces_inline [] false 0
                           {[ "class" := AList ["para"] ]}
                           [NavigableString "  Hello world "]
                           EvernoteConverter.init))).
    reflexivity.
  - apply (proj2 (proj2 (proj2 (block_text_by_paragraph_marker
                                  Reference.process_text
                                  Reference.base_convert
                                  Reference.forces_inline [] false 0
                                  ∅ [Reference.para "Hello"]
                                  EvernoteConverter.init)))).
    reflexivity.
Defined.




(** Scenario A: title [Trip], created 2023-01-15 09:30:00 +0000, and a
    paragraph-marked [Hello world]. *)
Example scenario_A_entry :
  exists e,
    Reference.from_html Reference.scenario_A = Ok e
    /\ EvernoteEntry.title e = "Trip"
    /\ EvernoteEntry.text e = "Hello world"
    /\ EvernoteEntry.time_created e
       = mkDatetime 2023 1 15 9 30 0 0 (Some (mkTz 0 "GMT"))
    /\ EvernoteEntry.time_updated e
       = mkDatetime 2023 1 16 9 30 0 0 (Some (mkTz 0 "GMT")).
Proof.
  destruct (Reference.from_html Reference.scenario_A) as [e|x] eqn:He.
  - exists e. split; [reflexivity|].
    vm_compute in He. injection He as <-. repeat split.
  - vm_compute in He. discriminate He.
Qed.

(** * Further properties *)

(** ** Stripping *)

Lemma lstrip_head s c r :
  PyStr.lstrip s = String c r -> PyStr.isspace c = false.
Proof.
  induction s as [|a s IH]; simpl; [done|].
  destruct (PyStr.isspace a) eqn:Ha; [done|]. by intros [= <- _].
Qed.

Lemma lstrip_fixed c r :
  PyStr.isspace c = false -> PyStr.lstrip (String c r) = String c r.
Proof. simpl. by intros ->. Qed.

Lemma rstrip_cons c s :
  PyStr.isspace c = false ->
  PyStr.rstrip (String c s) = String c (PyStr.rstrip s).
Proof. intros Hc. simpl. rewrite Hc. by destruct (PyStr.rstrip s). Qed.

Lemma rstrip_idemp s : PyStr.rstrip (PyStr.rstrip s) = PyStr.rstrip s.
Proof.
  induction s as [|a s IH]; [done|].
  simpl. destruct (PyStr.rstrip s) as [|b r] eqn:Hr.
  - destruct (PyStr.isspace a) eqn:Ha; [done|]. simpl. by rewrite Ha.
  - change (PyStr.rstrip (String a (String b r)))
      with (match PyStr.rstrip (String b r) with
            | "" => if PyStr.isspace a then "" else String a ""
            | r' => String a r'
            end).
    by rewrite IH.
Qed.

Lemma rstrip_last s c :
  last_char (PyStr.rstrip s) = Some c -> PyStr.isspace c = false.
Proof.
  induction s as [|a s IH]; [done|].
  simpl. destruct (PyStr.rstrip s) as [|b r] eqn:Hr.
  - destruct (PyStr.isspace a) eqn:Ha; [done|]. simpl. by intros [= <-].
  - intros H. apply IH. exact H.
Qed.

Lemma rstrip_blank s : PyStr.rstrip s = "" <-> PyStr.blank s = true.
Proof.
  induction s as [|a s IH]; [done|].
  simpl. destruct (PyStr.rstrip s) as [|b r] eqn:Hr.
  - destruct (PyStr.isspace a); simpl; [|done].
    split; [|done]. intros _. by apply IH.
  - split; [done|]. intros [_ H]%andb_prop. by apply IH in H.
Qed.

Lemma strip_head s c r :
  PyStr.strip s = String c r -> PyStr.isspace c = false.
Proof.
  unfold PyStr.strip. destruct (PyStr.lstrip s) as [|a l] eqn:Hl; [done|].
  pose proof (lstrip_head _ _ _ Hl) as Ha.
  rewrite (rstrip_cons _ _ Ha). by intros [= <- _].
Qed.

Lemma strip_idemp s : PyStr.strip (PyStr.strip s) = PyStr.strip s.
Proof.
  destruct (PyStr.strip s) as [|c r] eqn:Hs; [done|].
  pose proof (strip_head _ _ _ Hs) as Hc.
  unfold PyStr.strip at 1. rewrite (lstrip_fixed _ _ Hc), <- Hs.
  apply rstrip_idemp.
Qed.

Lemma strip_empty_iff_blank s : PyStr.strip s = "" <-> PyStr.blank s = true.
Proof.
  split; [|apply strip_blank].
  unfold PyStr.strip. induction s as [|a s IH]; [done|].
  cbn [PyStr.lstrip PyStr.blank].
  destruct (PyStr.isspace a) eqn:Ha; [exact IH|].
  by rewrite (rstrip_cons _ _ Ha).
Qed.

(** ** The text and the outcome of an assembly *)

(** X1: the text of every assembled entry is trimmed: stripping it again
    changes nothing, and neither its first nor its last character is
    white space. *)
Theorem entry_text_is_trimmed :
  forall (process_text : list PageElement -> nat -> string -> string)
         (base_convert :
            list PageElement -> PageElement -> string -> bool -> string)
         (forces_inline : string -> bool)
         (float : Type) (float_of : string -> option float)
         (zone : Type) (strptime : string -> string -> option datetime)
         (timezone : string -> zone)
         (astimezone : datetime -> zone -> datetime)
         (html : list PageElement) (e : EvernoteEntry.t float),
    EvernoteEntry.from_html process_text base_convert forces_inline
      float_of strptime timezone astimezone html = Ok e ->
    PyStr.strip (EvernoteEntry.text e) = EvernoteEntry.text e
    /\ (forall c r, EvernoteEntry.text e = String c r ->
                    PyStr.isspace c = false)
    /\ (forall c, last_char (EvernoteEntry.text e) = Some c ->
                  PyStr.isspace c = false).
Proof.
  intros pt bc fi float float_of zone strptime timezone astimezone html e
    (_ & -> & _)%from_html_fields.
  split; [apply strip_idemp|]. split.
  - intros c r. apply strip_head.
  - intros c. unfold PyStr.strip. apply rstrip_last.
Qed.

Lemma entry_text_is_trimmed_witness :
  exists e,
    Reference.from_html
      (Reference.div ["para"] [NavigableString "  Hello world  "]
       :: Reference.stamps) = Ok e
    /\ PyStr.strip (EvernoteEntry.text e) = EvernoteEntry.text e.
Proof.
  destruct (Reference.from_html
              (Reference.div ["para"] [NavigableString "  Hello world  "]
               :: Reference.stamps)) as [e|x] eqn:He.
  - exists e. split; [reflexivity|].
    exact (proj1 (entry_text_is_trimmed
                    Reference.process_text Reference.base_convert
                    Reference.forces_inline _ Reference.float_of _
                    Reference.strptime Reference.timezone
                    Reference.astimezone _ e He)).
  - vm_compute in He. discriminate He.
Defined.


(** ** The traversal: text and state *)
Section Traversal_more.

Variable process_text : list PageElement -> nat -> string -> string.
Variable base_convert :
  list PageElement -> PageElement -> string -> bool -> string.
Variable forces_inline : string -> bool.

Abbreviation process_tag'' :=
  (EvernoteConverter.process_tag process_text base_convert forces_inline).

Lemma convert_fn_text name parents self self' el text inl :
  (EvernoteConverter.convert_fn base_convert name parents self el text
     inl).2
  = (EvernoteConverter.convert_fn base_convert name parents self' el text
       inl).2.
Proof.
  unfold EvernoteConverter.convert_fn.
  destruct (decide (name = "meta")); [by rewrite !convert_meta_text|].
  destruct (decide (name = "div")).
  { unfold EvernoteConverter.convert_div.
    destruct (getitem el "class") as [cls|]; [|done].
    by destruct (py_in "para" cls). }
  by destruct (decide (name = "img")).
Qed.

Lemma process_children_text parents inl children :
  Forall (fun el => forall parents inl i self self',
              (process_tag'' parents inl i el self).2
              = (process_tag'' parents inl i el self').2) children ->
  forall i self self',
    (EvernoteConverter.process_children (process_tag'' parents inl)
       i children self).2
    = (EvernoteConverter.process_children (process_tag'' parents inl)
         i children self').2.
Proof.
  induction 1 as [|el rest Hel _ IH]; intros i self self'; [done|].
  rewrite !process_children_cons. simpl.
  f_equal; [apply Hel|apply IH].
Qed.

Lemma process_tag_text el :
  forall parents inl i self self',
    (process_tag'' parents inl i el self).2
    = (process_tag'' parents inl i el self').2.
Proof.
  induction el as [s|s|name attrs children IH] using PageElement_ind';
    intros parents inl i self self'; [done..|].
  rewrite !process_tag_Tag. cbv zeta.
  rewrite (process_children_text _ _ _ IH 0 self self').
  apply convert_fn_text.
Qed.

End Traversal_more.

(** X3: the text that the traversal makes of an element does not depend on
    the converter state it starts from: what has been harvested so far
    (title, tags, timestamps, coordinates, photos) never changes the
    converted text. *)
Theorem converted_text_ignores_harvest :
  forall (process_text : list PageElement -> nat -> string -> string)
         (base_convert :
            list PageElement -> PageElement -> string -> bool -> string)
         (forces_inline : string -> bool)
         parents convert_as_inline i el self self',
    (EvernoteConverter.process_tag process_text base_convert forces_inline
       parents convert_as_inline i el self).2
    = (EvernoteConverter.process_tag process_text base_convert forces_inline
         parents convert_as_inline i el self').2.
Proof. intros. apply process_tag_text. Qed.

(** X4: the traversal of an element only adds to what has been harvested:
    every tag found before is still in the tag set afterwards, and the
    photo list afterwards starts with the photo list before. *)
Theorem traversal_only_adds :
  forall (process_text : list PageElement -> nat -> string -> string)
         (base_convert :
            list PageElement -> PageElement -> string -> bool -> string)
         (forces_inline : string -> bool)
         parents convert_as_inline i el self,
    let after :=
      (EvernoteConverter.process_tag process_text base_convert forces_inline
         parents convert_as_inline i el self).1 in
    EvernoteConverter.found_tags self ⊆ EvernoteConverter.found_tags after
    /\ EvernoteConverter.photos self `prefix_of` EvernoteConverter.photos after.
Proof.
  intros pt bc fi parents inl i el self. cbv zeta.
  rewrite process_tag_state, replay_found_tags, replay_photos.
  split; [set_solver|]. by eexists.
Qed.

(** X5: an element without well-formed metadata markers and without images
    that have a source, in itself or below it, leaves the converter state
    exactly as it was. *)
Theorem traversal_without_events_keeps_state :
  forall (process_text : list PageElement -> nat -> string -> string)
         (base_convert :
            list PageElement -> PageElement -> string -> bool -> string)
         (forces_inline : string -> bool)
         parents convert_as_inline i el self,
    events el = [] ->
    (EvernoteConverter.process_tag process_text base_convert forces_inline
       parents convert_as_inline i el self).1 = self.
Proof.
  intros pt bc fi parents inl i el self Hev.
  by rewrite process_tag_state, Hev.
Qed.

Lemma traversal_without_events_keeps_state_witness :
  (EvernoteConverter.process_tag Reference.process_text
     Reference.base_convert Reference.forces_inline [] false 0
     (Reference.div ["para"]
        [NavigableString "Hello"; Tag "img" ∅ [];
         Tag "meta" {[ "itemprop" := AStr "title" ]} []])
     EvernoteConverter.init).1
  = EvernoteConverter.init.
Proof.
  apply (traversal_without_events_keeps_state
           Reference.process_text Reference.base_convert
           Reference.forces_inline [] false 0).
  vm_compute. reflexivity.
Defined.

(** X6: what the traversal of a whole document leaves in the converter:
    the title, the two timestamps and the three coordinates are the values
    of the last marker of their name (or the empty string without one),
    the tags are the set of the values of the [tag] markers, and the
    photos are the sources of the images in traversal order.  Nothing else
    in the document has any influence on it. *)
Theorem harvest_of_document :
  forall (process_text : list PageElement -> nat -> string -> string)
         (base_convert :
            list PageElement -> PageElement -> string -> bool -> string)
         (forces_inline : string -> bool)
         (html : list PageElement),
    let last_of key :=
      default "" (last (marker_values key (document_events html))) in
    (EvernoteConverter.convert process_text base_convert forces_inline
       html).1
    = EvernoteConverter.mk (last_of "title") (list_to_set (tag_values html))
        (last_of "created") (last_of "updated") (last_of "latitude")
        (last_of "longitude") (last_of "altitude")
        (photo_sources (document_events html)).
Proof.
  intros pt bc fi html. cbv zeta.
  pose proof (convert_found_tags pt bc fi html) as Htags.
  pose proof (convert_photos pt bc fi html) as Hphotos.
  pose proof (fun key H => convert_stored pt bc fi key html H) as Hst.
  pose proof (Hst "title" ltac:(by_evaluation)) as H1.
  pose proof (Hst "created" ltac:(by_evaluation)) as H2.
  pose proof (Hst "updated" ltac:(by_evaluation)) as H3.
  pose proof (Hst "latitude" ltac:(by_evaluation)) as H4.
  pose proof (Hst "longitude" ltac:(by_evaluation)) as H5.
  pose proof (Hst "altitude" ltac:(by_evaluation)) as H6.
  clear Hst. unfold stored in H1, H2, H3, H4, H5, H6.
  simpl in H1, H2, H3, H4, H5, H6.
  destruct (EvernoteConverter.convert pt bc fi html).1. simpl in *.
  congruence.
Qed.

(** X7: a well-formed marker met twice in a row has the effect of meeting
    it once, and two markers with different property names have the same
    effect in either order. *)
Theorem markers_idempotent_and_commute :
  (forall self el text inl text' inl',
      (EvernoteConverter.convert_meta
         (EvernoteConverter.convert_meta self el text inl).1 el text'
         inl').1
      = (EvernoteConverter.convert_meta self el text inl).1)
  /\ (forall self el1 el2 p1 p2 text inl,
         get_str el1 "itemprop" = Some p1 ->
         get_str el2 "itemprop" = Some p2 ->
         p1 <> p2 ->
         (EvernoteConverter.convert_meta
            (EvernoteConverter.convert_meta self el1 text inl).1 el2 text
            inl).1
         = (EvernoteConverter.convert_meta
              (EvernoteConverter.convert_meta self el2 text inl).1 el1 text
              inl).1).
Proof.
  split.
  - intros self el text inl text' inl'.
    destruct (get_str el "itemprop") as [p|] eqn:Hp.
    2:{ rewrite !convert_meta_skip; auto. }
    destruct (get_str el "content") as [c|] eqn:Hc.
    2:{ rewrite !convert_meta_skip; auto. }
    rewrite !(convert_meta_store _ _ _ _ _ _ Hp Hc). simpl.
    unfold store. repeat case_decide; try done.
    unfold EvernoteConverter.add_found_tag. simpl. f_equal. set_solver.
  - intros self el1 el2 p1 p2 text inl Hp1 Hp2 Hne.
    destruct (get_str el1 "content") as [c1|] eqn:Hc1.
    2:{ rewrite !(convert_meta_skip _ el1); auto. }
    destruct (get_str el2 "content") as [c2|] eqn:Hc2.
    2:{ rewrite !(convert_meta_skip _ el2); auto. }
    rewrite !(convert_meta_store _ _ _ _ _ _ Hp1 Hc1),
      !(convert_meta_store _ _ _ _ _ _ Hp2 Hc2). simpl.
    unfold store. repeat case_decide; subst; try done.
Qed.

Lemma markers_idempotent_and_commute_witness :
  (EvernoteConverter.convert_meta
     (EvernoteConverter.convert_meta EvernoteConverter.init
        (Reference.meta "title" "Trip") "" false).1
     (Reference.meta "created" "20230115T093000+0000") "" false).1
  = (EvernoteConverter.convert_meta
       (EvernoteConverter.convert_meta EvernoteConverter.init
          (Reference.meta "created" "20230115T093000+0000") "" false).1
       (Reference.meta "title" "Trip") "" false).1.
Proof.
  apply (proj2 markers_idempotent_and_commute EvernoteConverter.init
           (Reference.meta "title" "Trip")
           (Reference.meta "created" "20230115T093000+0000")
           "title" "created" "" false).
  - reflexivity.
  - reflexivity.
  - discriminate.
Defined.

(** ** Paragraphs *)

Lemma append_cons c s1 s2 : String c s1 +:+ s2 = String c (s1 +:+ s2).
Proof. reflexivity. Qed.

Lemma append_nil_r s : s +:+ "" = s.
Proof. induction s as [|c s IH]; [done|]. by rewrite append_cons, IH. Qed.

Lemma append_assoc s1 s2 s3 : (s1 +:+ s2) +:+ s3 = s1 +:+ (s2 +:+ s3).
Proof.
  induction s1 as [|c s1 IH]; [done|]. by rewrite !append_cons, IH.
Qed.

Lemma append_empty s1 s2 : s1 +:+ s2 = "" -> s1 = "" /\ s2 = "".
Proof. destruct s1; [done|]. by rewrite append_cons. Qed.

Lemma rstrip_app_blank s1 s2 :
  PyStr.blank s2 = true -> PyStr.rstrip (s1 +:+ s2) = PyStr.rstrip s1.
Proof.
  intros Hb. induction s1 as [|c s1 IH].
  - by apply rstrip_blank.
  - rewrite append_cons. cbn [PyStr.rstrip]. by rewrite IH.
Qed.

Lemma rstrip_app_kept s1 s2 :
  PyStr.rstrip s2 <> "" ->
  PyStr.rstrip (s1 +:+ s2) = s1 +:+ PyStr.rstrip s2.
Proof.
  intros Hne. induction s1 as [|c s1 IH]; [done|].
  rewrite !append_cons. cbn [PyStr.rstrip]. rewrite IH.
  destruct (s1 +:+ PyStr.rstrip s2) eqn:Happ; [|done].
  by apply append_empty in Happ as [_ ?].
Qed.

Lemma concat_nonempty sep l ls :
  l <> "" -> String.concat sep (l :: ls) <> "".
Proof.
  intros Hl. destruct ls; simpl; [done|].
  intros [? _]%append_empty. done.
Qed.

Lemma rstrip_lines_text ls :
  ls <> [] ->
  Forall (fun l => l <> "" /\ PyStr.rstrip l = l) ls ->
  PyStr.rstrip (lines_text ls) = String.concat (String "010" "") ls.
Proof.
  induction ls as [|l ls IH]; [done|]. intros _ Hall.
  apply Forall_cons in Hall as [[Hl Hr] Hall].
  destruct ls as [|l' ls].
  - simpl. rewrite append_nil_r, rstrip_app_blank by done. done.
  - change (lines_text (l :: l' :: ls))
      with ((l +:+ String "010" "") +:+ lines_text (l' :: ls)).
    rewrite rstrip_app_kept.
    + rewrite IH by done. by rewrite append_assoc.
    + rewrite IH by done. apply concat_nonempty.
      by apply Forall_cons in Hall as [[? _] _].
Qed.

Lemma strip_lines_text ls :
  Forall (fun l => l <> "" /\ PyStr.strip l = l) ls ->
  PyStr.strip (lines_text ls) = String.concat (String "010" "") ls.
Proof.
  intros Hall. destruct ls as [|l ls]; [done|].
  assert (exists c r, l = String c r /\ PyStr.isspace c = false)
    as (c & r & -> & Hc).
  { apply Forall_cons in Hall as [[Hl Hs] _].
    destruct l as [|c r]; [done|]. exists c, r. split; [done|].
    by apply (strip_head _ _ _ Hs). }
  unfold PyStr.strip.
  change (lines_text (String c r :: ls))
    with (String c ((r +:+ String "010" "") +:+ lines_text ls)).
  rewrite (lstrip_fixed _ _ Hc).
  change (String c ((r +:+ String "010" "") +:+ lines_text ls))
    with (lines_text (String c r :: ls)).
  apply rstrip_lines_text; [done|].
  eapply Forall_impl; [exact Hall|]. intros l [Hl Hs]. split; [done|].
  rewrite <- Hs at 1. unfold PyStr.strip. by rewrite rstrip_idemp.
Qed.

Section Paragraphs.

Variable process_text : list PageElement -> nat -> string -> string.
Variable base_convert :
  list PageElement -> PageElement -> string -> bool -> string.
Variable forces_inline : string -> bool.

Lemma process_tag_paragraph parents i el self :
  is_paragraph el = true ->
  (EvernoteConverter.process_tag process_text base_convert forces_inline
     parents false i el self).2
  = PyStr.strip
      (EvernoteConverter.process_children
         (EvernoteConverter.process_tag process_text base_convert
            forces_inline (el :: parents) (false || forces_inline "div"))
         0 (contents el) EvernoteConverter.init).2
    +:+ String "010" "".
Proof.
  destruct el as [s|s|name attrs children]; [done..|].
  intros [->%bool_decide_eq_true_1 Hp]%andb_prop.
  rewrite process_tag_div, convert_div_para by done. simpl.
  do 2 f_equal.
  apply process_children_text, Forall_forall.
  intros el _. apply process_tag_text.
Qed.

Lemma process_tag_silent parents i el self :
  silent el = true ->
  (EvernoteConverter.process_tag process_text base_convert forces_inline
     parents false i el self).2 = "".
Proof.
  destruct el as [s|s|name attrs children]; [done..|].
  intros Hs. rewrite process_tag_Tag. cbv zeta.
  unfold EvernoteConverter.convert_fn. simpl in Hs.
  destruct (decide (name = "meta")) as [->|Hm].
  { apply convert_meta_text. }
  rewrite bool_decide_eq_false_2 in Hs by done. simpl in Hs.
  apply andb_prop in Hs as [->%bool_decide_eq_true_1 Hp].
  apply negb_true_iff in Hp. simpl. by rewrite convert_div_other.
Qed.

End Paragraphs.

Lemma process_children_paragraphs process_text base_convert forces_inline
    parents html :
  Forall (fun el => is_paragraph el = true \/ silent el = true) html ->
  forall i self,
    (EvernoteConverter.process_children
       (EvernoteConverter.process_tag process_text base_convert
          forces_inline parents false) i html self).2
    = lines_text
        (map (fun el =>
                PyStr.strip
                  (EvernoteConverter.process_children
                     (EvernoteConverter.process_tag process_text
                        base_convert forces_inline (el :: parents)
                        (false || forces_inline "div"))
                     0 (contents el) EvernoteConverter.init).2)
           (filter (fun el => is_paragraph el = true) html)).
Proof.
  induction 1 as [|el rest Hel _ IH]; intros i self; [done|].
  rewrite process_children_cons. cbv zeta. cbn [snd]. rewrite IH.
  rewrite filter_cons. destruct Hel as [Hp|Hs].
  - rewrite decide_True by done.
    by rewrite (process_tag_paragraph _ _ _ _ _ _ _ Hp).
  - rewrite (process_tag_silent _ _ _ _ _ _ _ Hs).
    rewrite decide_False; [done|].
    destruct el as [s|s|name attrs children]; [done..|].
    simpl in Hs. simpl. intros [Hn Hp]%andb_prop.
    apply bool_decide_eq_true_1 in Hn as ->.
    rewrite Hp in Hs. done.
Qed.

(** X8: when every top-level node of a document is a paragraph-marked
    block, a metadata marker, a comment or an unmarked block, and every
    paragraph has a non-blank text, the text of the entry is the texts of
    the paragraphs, each stripped, in document order and separated by
    single line breaks (without a line break at the end). *)
Theorem paragraphs_become_lines :
  forall (process_text : list PageElement -> nat -> string -> string)
         (base_convert :
            list PageElement -> PageElement -> string -> bool -> string)
         (forces_inline : string -> bool)
         (float : Type) (float_of : string -> option float)
         (zone : Type) (strptime : string -> string -> option datetime)
         (timezone : string -> zone)
         (astimezone : datetime -> zone -> datetime)
         (html : list PageElement) (e : EvernoteEntry.t float),
    let line el :=
      PyStr.strip
        (EvernoteConverter.process_children
           (EvernoteConverter.process_tag process_text base_convert
              forces_inline [el; EvernoteConverter.BeautifulSoup html]
              (false || forces_inline "div"))
           0 (contents el) EvernoteConverter.init).2 in
    let paragraphs := filter (fun el => is_paragraph el = true) html in
    Forall (fun el => is_paragraph el = true \/ silent el = true) html ->
    Forall (fun el => line el <> "") paragraphs ->
    EvernoteEntry.from_html process_text base_convert forces_inline
      float_of strptime timezone astimezone html = Ok e ->
    EvernoteEntry.text e
    = String.concat (String "010" "") (map line paragraphs).
Proof.
  intros pt bc fi float float_of zone strptime timezone astimezone html e.
  cbv zeta. intros Hshape Hlines (_ & -> & _)%from_html_fields.
  unfold EvernoteConverter.convert.
  rewrite (process_children_paragraphs pt bc fi _ html Hshape).
  apply strip_lines_text, Forall_fmap.
  eapply Forall_impl; [exact Hlines|]. intros el Hne. simpl.
  split; [done|]. apply strip_idemp.
Qed.

Lemma paragraphs_become_lines_witness :
  exists e,
    Reference.from_html Reference.two_paragraphs = Ok e
    /\ EvernoteEntry.text e
       = "Hello world" +:+ String "010" "second line".
Proof.
  destruct (Reference.from_html Reference.two_paragraphs) as [e|x] eqn:He.
  - exists e. split; [reflexivity|].
    rewrite (paragraphs_become_lines
               Reference.process_text Reference.base_convert
               Reference.forces_inline _ Reference.float_of _
               Reference.strptime Reference.timezone Reference.astimezone
               Reference.two_paragraphs e).
    + vm_compute. reflexivity.
    + repeat constructor; by_evaluation.
    + repeat constructor; vm_compute; discriminate.
    + exact He.
  - vm_compute in He. discriminate He.
Defined.

(** ** Decimal fields and path components *)

Lemma all_digits_app s1 s2 :
  all_digits (s1 +:+ s2) = all_digits s1 && all_digits s2.
Proof.
  induction s1 as [|c s1 IH]; [done|].
  rewrite append_cons. simpl. by rewrite IH, andb_assoc.
Qed.

Lemma all_digits_string_of_uint d :
  all_digits (NilEmpty.string_of_uint d) = true.
Proof. induction d; simpl; by rewrite ?IHd. Qed.

Lemma zeros_cons k :
  String.concat "" (replicate (S k) "0")
  = String "0" (String.concat "" (replicate k "0")).
Proof. destruct k; reflexivity. Qed.

Lemma all_digits_zeros k :
  all_digits (String.concat "" (replicate k "0")) = true.
Proof.
  induction k as [|k IH]; [done|]. rewrite zeros_cons. simpl. exact IH.
Qed.

Lemma all_digits_decimal width n : all_digits (decimal width n) = true.
Proof.
  unfold decimal, zfill.
  by rewrite all_digits_app, all_digits_zeros, all_digits_string_of_uint.
Qed.

Lemma decimal_nonempty width n : 0 < width -> decimal width n <> "".
Proof.
  intros Hw. unfold decimal, zfill.
  destruct (NilEmpty.string_of_uint (N.to_uint n)) as [|c s] eqn:Hs.
  - simpl. rewrite Nat.sub_0_r. destruct width as [|k]; [lia|].
    by rewrite zeros_cons.
  - intros [_ ?]%append_empty. done.
Qed.

Lemma all_digits_free_of c s :
  c ∉ ["0"; "1"; "2"; "3"; "4"; "5"; "6"; "7"; "8"; "9"]%char ->
  all_digits s = true -> free_of c s = true.
Proof.
  intros Hc. induction s as [|a s IH]; [done|]. simpl.
  intros [Ha Hs]%andb_prop. rewrite IH by done.
  apply bool_decide_eq_true_1 in Ha.
  rewrite bool_decide_eq_false_2; [done|]. by intros ->.
Qed.

Lemma decimal_free_of_slash width n : free_of "/" (decimal width n) = true.
Proof.
  apply all_digits_free_of; [|apply all_digits_decimal].
  apply (bool_decide_eq_false_1 _). vm_compute. reflexivity.
Qed.

Lemma decimal_free_of_dash width n : free_of "-" (decimal width n) = true.
Proof.
  apply all_digits_free_of; [|apply all_digits_decimal].
  apply (bool_decide_eq_false_1 _). vm_compute. reflexivity.
Qed.

Lemma free_of_app c s1 s2 :
  free_of c (s1 +:+ s2) = free_of c s1 && free_of c s2.
Proof.
  induction s1 as [|a s1 IH]; [done|].
  rewrite append_cons. simpl. by rewrite IH, andb_assoc.
Qed.

Lemma split_free sep s : free_of sep s = true -> Path.split sep s = [s].
Proof.
  induction s as [|a s IH]; [done|]. simpl.
  intros [Ha Hs]%andb_prop. apply negb_true_iff, bool_decide_eq_false_1 in Ha.
  rewrite decide_False by done. by rewrite IH.
Qed.

Lemma split_app sep s1 s2 :
  free_of sep s1 = true ->
  Path.split sep (s1 +:+ String sep s2) = s1 :: Path.split sep s2.
Proof.
  induction s1 as [|a s1 IH].
  - intros _. simpl. by rewrite decide_True.
  - rewrite append_cons. simpl. intros [Ha Hs]%andb_prop.
    apply negb_true_iff, bool_decide_eq_false_1 in Ha.
    rewrite decide_False by done. by rewrite IH.
Qed.

(** A component that is kept by [Path]: neither empty nor a dot. *)
Lemma keep_digits s : all_digits s = true -> s <> "" -> Path.keep s = true.
Proof.
  intros Hd Hne. unfold Path.keep.
  rewrite !bool_decide_eq_false_2; [done| |done].
  intros ->. vm_compute in Hd. discriminate Hd.
Qed.

Lemma root_of_digits s r :
  all_digits s = true -> s <> "" -> Path.root_of (s +:+ r) = "".
Proof.
  destruct s as [|c s]; [done|]. intros [Hc _]%andb_prop _.
  rewrite append_cons. apply bool_decide_eq_true_1 in Hc.
  destruct (decide (c = "/"%char)) as [->|Hne].
  - exfalso. revert Hc. apply (bool_decide_eq_false_1 _). vm_compute.
    reflexivity.
  - unfold Path.root_of.
    destruct c as [[] [] [] [] [] [] [] []]; try done.
Qed.

Lemma sep_app c s : String c "" +:+ s = String c s.
Proof. reflexivity. Qed.

Lemma keep_starts_with_digits s r :
  all_digits s = true -> s <> "" -> Path.keep (s +:+ r) = true.
Proof.
  destruct s as [|c s]; [done|]. intros [Hc _]%andb_prop _.
  rewrite append_cons. unfold Path.keep.
  rewrite !bool_decide_eq_false_2; [done| |done].
  intros [= -> _]. vm_compute in Hc. discriminate Hc.
Qed.

Lemma of_string_three a b c :
  all_digits a = true -> a <> "" ->
  all_digits b = true -> b <> "" ->
  all_digits c = true -> c <> "" ->
  Path.of_string (a +:+ "/" +:+ b +:+ "/" +:+ c +:+ "/")
  = Path.mk "" [a; b; c].
Proof.
  intros Ha Ha' Hb Hb' Hc Hc'. unfold Path.of_string.
  rewrite (root_of_digits _ _ Ha Ha'). f_equal.
  assert (forall s, all_digits s = true -> free_of "/" s = true) as Hfree.
  { intros s. apply all_digits_free_of.
    apply (bool_decide_eq_false_1 _). vm_compute. reflexivity. }
  rewrite !sep_app, !split_app by auto. simpl Path.split.
  rewrite !filter_cons, filter_nil.
  rewrite !decide_True by (by apply keep_digits).
  by rewrite decide_False.
Qed.

Lemma of_string_name a r :
  all_digits a = true -> a <> "" ->
  free_of "/" (a +:+ r) = true ->
  Path.of_string (a +:+ r) = Path.mk "" [a +:+ r].
Proof.
  intros Ha Ha' Hfree. unfold Path.of_string.
  rewrite (root_of_digits _ _ Ha Ha'), (split_free _ _ Hfree). f_equal.
  rewrite filter_cons, filter_nil.
  by rewrite decide_True by (by apply keep_starts_with_digits).
Qed.

Lemma markdown_directory_parts (float : Type) (e : EvernoteEntry.t float) :
  EvernoteEntry.markdown_directory e
  = Path.mk "" [decimal 4 (year (EvernoteEntry.time_created e));
                decimal 2 (month (EvernoteEntry.time_created e));
                decimal 2 (day (EvernoteEntry.time_created e))].
Proof.
  unfold EvernoteEntry.markdown_directory.
  apply (of_string_three
           (decimal 4 (year (EvernoteEntry.time_created e)))
           (decimal 2 (month (EvernoteEntry.time_created e)))
           (decimal 2 (day (EvernoteEntry.time_created e))));
    auto using all_digits_decimal; apply decimal_nonempty; lia.
Qed.


Lemma markdown_file_name (c : datetime) :
  strftime c "%Y-%m-%d-%H-%M-%S-%f-%Z.md"
  = decimal 4 (year c) +:+ "-" +:+ decimal 2 (month c) +:+ "-"
    +:+ decimal 2 (day c) +:+ "-" +:+ decimal 2 (hour c) +:+ "-"
    +:+ decimal 2 (minute c) +:+ "-" +:+ decimal 2 (second c) +:+ "-"
    +:+ decimal 6 (microsecond c) +:+ "-" +:+ zone_name c +:+ ".md".
Proof. reflexivity. Qed.

Lemma markdown_file_parts (float : Type) (e : EvernoteEntry.t float) :
  free_of "/" (zone_name (EvernoteEntry.time_created e)) = true ->
  EvernoteEntry.markdown_file e
  = Path.mk ""
      [decimal 4 (year (EvernoteEntry.time_created e));
       decimal 2 (month (EvernoteEntry.time_created e));
       decimal 2 (day (EvernoteEntry.time_created e));
       strftime (EvernoteEntry.time_created e) "%Y-%m-%d-%H-%M-%S-%f-%Z.md"].
Proof.
  intros Hzone. unfold EvernoteEntry.markdown_file.
  rewrite markdown_directory_parts, markdown_file_name.
  rewrite of_string_name; [done|..].
  - apply all_digits_decimal.
  - apply decimal_nonempty. lia.
  - rewrite !free_of_app, !decimal_free_of_slash, Hzone. reflexivity.
Qed.



(** ** When two entries get the same file *)

Lemma decimal_value_zero s : decimal_value (String "0" s) = decimal_value s.
Proof.
  unfold decimal_value. simpl.
  by destruct (NilEmpty.uint_of_string s).
Qed.

Lemma decimal_value_zeros k s :
  decimal_value (String.concat "" (replicate k "0") +:+ s) = decimal_value s.
Proof.
  induction k as [|k IH]; [done|].
  by rewrite zeros_cons, append_cons, decimal_value_zero.
Qed.

Lemma decimal_value_decimal width n : decimal_value (decimal width n) = Some n.
Proof.
  unfold decimal, zfill. rewrite decimal_value_zeros.
  unfold decimal_value. rewrite NilEmpty.usu. simpl.
  by rewrite DecimalN.Unsigned.of_to.
Qed.

Lemma decimal_inj width n m : decimal width n = decimal width m -> n = m.
Proof.
  intros H. apply (f_equal decimal_value) in H.
  rewrite !decimal_value_decimal in H. by injection H.
Qed.

Lemma sep_inj c a a' r r' :
  free_of c a = true -> free_of c a' = true ->
  a +:+ String c r = a' +:+ String c r' -> a = a' /\ r = r'.
Proof.
  revert a'. induction a as [|x a IH]; intros [|x' a']; simpl.
  - by intros _ _ [= ->].
  - intros _ [Hx _]%andb_prop. rewrite append_cons. intros [= <- _].
    by rewrite bool_decide_eq_true_2 in Hx.
  - intros [Hx _]%andb_prop _. rewrite append_cons. intros [= -> _].
    by rewrite bool_decide_eq_true_2 in Hx.
  - intros [_ Ha]%andb_prop [_ Ha']%andb_prop.
    rewrite !append_cons. intros [= -> H].
    by destruct (IH a' Ha Ha' H) as [-> ->].
Qed.

Lemma length_append s1 s2 :
  String.length (s1 +:+ s2) = String.length s1 + String.length s2.
Proof.
  induction s1 as [|c s1 IH]; [done|]. rewrite append_cons. simpl.
  by rewrite IH.
Qed.

Lemma append_inj_r s1 s2 t : s1 +:+ t = s2 +:+ t -> s1 = s2.
Proof.
  revert s2. induction s1 as [|c s1 IH]; intros [|c' s2] H.
  - done.
  - apply (f_equal String.length) in H.
    rewrite !length_append in H. simpl in H. lia.
  - apply (f_equal String.length) in H.
    rewrite !length_append in H. simpl in H. lia.
  - rewrite !append_cons in H. injection H as -> H. f_equal. by apply IH.
Qed.

Lemma markdown_file_name_inj c c' :
  strftime c "%Y-%m-%d-%H-%M-%S-%f-%Z.md"
  = strftime c' "%Y-%m-%d-%H-%M-%S-%f-%Z.md" ->
  year c = year c' /\ month c = month c' /\ day c = day c'
  /\ hour c = hour c' /\ minute c = minute c' /\ second c = second c'
  /\ microsecond c = microsecond c' /\ zone_name c = zone_name c'.
Proof.
  rewrite !markdown_file_name, !sep_app. intros H.
  apply sep_inj in H as [H1 H]; [|apply decimal_free_of_dash..].
  apply sep_inj in H as [H2 H]; [|apply decimal_free_of_dash..].
  apply sep_inj in H as [H3 H]; [|apply decimal_free_of_dash..].
  apply sep_inj in H as [H4 H]; [|apply decimal_free_of_dash..].
  apply sep_inj in H as [H5 H]; [|apply decimal_free_of_dash..].
  apply sep_inj in H as [H6 H]; [|apply decimal_free_of_dash..].
  apply sep_inj in H as [H7 H]; [|apply decimal_free_of_dash..].
  apply append_inj_r in H.
  repeat split; eauto using decimal_inj.
Qed.

(** X11: two entries whose zone abbreviations have no slash get the same
    file path exactly when their creation instants agree in year, month,
    day, hour, minute, second and microsecond and carry the same zone
    abbreviation; nothing else (the offset from UTC, the update instant,
    the title...) can tell two paths apart or make them collide. *)
Theorem markdown_file_collision :
  forall (float : Type) (e e' : EvernoteEntry.t float),
    let c := EvernoteEntry.time_created e in
    let c' := EvernoteEntry.time_created e' in
    free_of "/" (zone_name c) = true ->
    free_of "/" (zone_name c') = true ->
    (EvernoteEntry.markdown_file e = EvernoteEntry.markdown_file e' <->
     year c = year c' /\ month c = month c' /\ day c = day c'
     /\ hour c = hour c' /\ minute c = minute c' /\ second c = second c'
     /\ microsecond c = microsecond c' /\ zone_name c = zone_name c').
Proof.
  intros float e e'. cbv zeta. intros Hz Hz'.
  rewrite (markdown_file_parts _ _ Hz), (markdown_file_parts _ _ Hz').
  split.
  - intros [= _ _ _ Hname]. by apply markdown_file_name_inj.
  - intros (HY & HM & HD & Hh & Hm & Hs & Hf & HZ).
    rewrite !markdown_file_name. by rewrite HY, HM, HD, Hh, Hm, Hs, Hf, HZ.
Qed.

Lemma markdown_file_collision_witness :
  EvernoteEntry.markdown_file
    (EvernoteEntry.mk (float:=Reference.float) "Trip" "Hello" ∅
       (mkDatetime 2023 1 15 9 30 0 123456 (Some (mkTz 0 "GMT")))
       (mkDatetime 2023 1 16 9 30 0 0 (Some (mkTz 0 "GMT")))
       None None None [])
  <> EvernoteEntry.markdown_file
       (EvernoteEntry.mk (float:=Reference.float) "Trip" "Hello" ∅
          (mkDatetime 2023 1 15 9 30 0 123457 (Some (mkTz 0 "GMT")))
          (mkDatetime 2023 1 16 9 30 0 0 (Some (mkTz 0 "GMT")))
          None None None []).
Proof.
  intros H.
  destruct (proj1 (markdown_file_collision Reference.float
                     (EvernoteEntry.mk "Trip" "Hello" ∅
                        (mkDatetime 2023 1 15 9 30 0 123456
                           (Some (mkTz 0 "GMT")))
                        (mkDatetime 2023 1 16 9 30 0 0 (Some (mkTz 0 "GMT")))
                        None None None [])
                     (EvernoteEntry.mk "Trip" "Hello" ∅
                        (mkDatetime 2023 1 15 9 30 0 123457
                           (Some (mkTz 0 "GMT")))
                        (mkDatetime 2023 1 16 9 30 0 0 (Some (mkTz 0 "GMT")))
                        None None None [])
                     eq_refl eq_refl) H)
    as (_ & _ & _ & _ & _ & _ & Hmicro & _).
  discriminate Hmicro.
Defined.

(** ** The driver *)
Section Driver_facts.

Variable process_text : list PageElement -> nat -> string -> string.
Variable base_convert :
  list PageElement -> PageElement -> string -> bool -> string.
Variable forces_inline : string -> bool.
Variable float : Type.
Variable float_of : string -> option float.
Variable zone : Type.
Variable strptime : string -> string -> option datetime.
Variable timezone : string -> zone.
Variable astimezone : datetime -> zone -> datetime.
Variable repr : list attr_value -> string.

Abbreviation from_html'' :=
  (EvernoteEntry.from_html process_text base_convert forces_inline
     float_of strptime timezone astimezone).
Abbreviation export_loop' :=
  (export_loop process_text base_convert forces_inline float_of strptime
     timezone astimezone repr).

Lemma export_loop_cons source rest stdout :
  export_loop' (source :: rest) stdout
  = if negb (bool_decide (source.1 = "Evernote_index.html")) then
      match from_html'' source.2 with
      | Ok entry => export_loop' rest (stdout ++ report repr entry)
      | Raise e => (stdout, Raise e)
      end
    else export_loop' rest stdout.
Proof. reflexivity. Qed.

(** The loop over two sequences in a row: the second one is run only when
    the first one went through. *)
Lemma export_loop_app before after stdout :
  export_loop' (before ++ after) stdout
  = match export_loop' before stdout with
    | (stdout', Ok _) => export_loop' after stdout'
    | (stdout', Raise e) => (stdout', Raise e)
    end.
Proof.
  revert stdout. induction before as [|source before IH]; intros stdout.
  - done.
  - rewrite <- app_comm_cons, !export_loop_cons.
    destruct (negb _); [|apply IH].
    destruct (from_html'' source.2); [apply IH|done].
Qed.

End Driver_facts.

(** X12: a file named [Evernote_index.html] is never read as a note:
    [export] behaves as if the files of that name were not in the
    directory, whatever they contain. *)
Theorem export_skips_index :
  forall (process_text : list PageElement -> nat -> string -> string)
         (base_convert :
            list PageElement -> PageElement -> string -> bool -> string)
         (forces_inline : string -> bool)
         (float : Type) (float_of : string -> option float)
         (zone : Type) (strptime : string -> string -> option datetime)
         (timezone : string -> zone)
         (astimezone : datetime -> zone -> datetime)
         (repr : list attr_value -> string)
         (sources : list (string * list PageElement)) (stdout : list string),
    export_loop process_text base_convert forces_inline float_of strptime
      timezone astimezone repr sources stdout
    = export_loop process_text base_convert forces_inline float_of strptime
        timezone astimezone repr
        (filter (fun source => source.1 <> "Evernote_index.html") sources)
        stdout.
Proof.
  intros pt bc fi float float_of zone strptime timezone astimezone repr
    sources.
  induction sources as [|source rest IH]; intros stdout; [done|].
  rewrite filter_cons, export_loop_cons.
  destruct (decide (source.1 = "Evernote_index.html")) as [Hi|Hi].
  - rewrite bool_decide_eq_true_2, decide_False by auto. apply IH.
  - rewrite bool_decide_eq_false_2, decide_True by done.
    rewrite export_loop_cons, bool_decide_eq_false_2 by done. simpl.
    destruct (EvernoteEntry.from_html _ _ _ _ _ _ _ _); [apply IH|done].
Qed.

(** X13: the first note that cannot be assembled ends the export: the
    exception of that note escapes, the lines printed for the notes before
    it stay printed, and no file after it is looked at. *)
Theorem export_stops_at_first_failure :
  forall (process_text : list PageElement -> nat -> string -> string)
         (base_convert :
            list PageElement -> PageElement -> string -> bool -> string)
         (forces_inline : string -> bool)
         (float : Type) (float_of : string -> option float)
         (zone : Type) (strptime : string -> string -> option datetime)
         (timezone : string -> zone)
         (astimezone : datetime -> zone -> datetime)
         (repr : list attr_value -> string)
         (before after : list (string * list PageElement))
         (source : string * list PageElement)
         (stdout stdout' : list string) (e : exn),
    export_loop process_text base_convert forces_inline float_of strptime
      timezone astimezone repr before stdout = (stdout', Ok tt) ->
    source.1 <> "Evernote_index.html" ->
    EvernoteEntry.from_html process_text base_convert forces_inline
      float_of strptime timezone astimezone source.2 = Raise e ->
    export_loop process_text base_convert forces_inline float_of strptime
      timezone astimezone repr (before ++ source :: after) stdout
    = (stdout', Raise e).
Proof.
  intros pt bc fi float float_of zone strptime timezone astimezone repr
    before after source stdout stdout' e Hbefore Hname Hfail.
  rewrite export_loop_app, Hbefore, export_loop_cons.
  by rewrite bool_decide_eq_false_2, Hfail by done.
Qed.

Lemma export_stops_at_first_failure_witness :
  export_loop Reference.process_text Reference.base_convert
    Reference.forces_inline Reference.float_of Reference.strptime
    Reference.timezone Reference.astimezone (fun _ => "")
    ([("a.html", Reference.scenario_A)]
     ++ ("e.html", Reference.scenario_E)
     :: [("b.html", Reference.scenario_B)]) []
  = (["Importing Trip -> 2023/01/15/2023-01-15-09-30-00-000000-GMT.md"],
     Raise TimestampParseError).
Proof.
  apply (export_stops_at_first_failure
           Reference.process_text Reference.base_convert
           Reference.forces_inline _ Reference.float_of _
           Reference.strptime Reference.timezone Reference.astimezone
           (fun _ => "") [("a.html", Reference.scenario_A)]
           [("b.html", Reference.scenario_B)]
           ("e.html", Reference.scenario_E) []).
  - vm_compute. reflexivity.
  - discriminate.
  - vm_compute. reflexivity.
Defined.

Section Driver_outcome.

Variable process_text : list PageElement -> nat -> string -> string.
Variable base_convert :
  list PageElement -> PageElement -> string -> bool -> string.
Variable forces_inline : string -> bool.
Variable float : Type.
Variable float_of : string -> option float.
Variable zone : Type.
Variable strptime : string -> string -> option datetime.
Variable timezone : string -> zone.
Variable astimezone : datetime -> zone -> datetime.
Variable repr : list attr_value -> string.

Abbreviation importable' :=
  (importable process_text base_convert forces_inline float float_of
     strptime timezone astimezone).
Abbreviation printed' :=
  (printed process_text base_convert forces_inline float_of strptime
     timezone astimezone repr).

Lemma export_loop_Ok_iff sources stdout :
  (export_loop process_text base_convert forces_inline float_of strptime
     timezone astimezone repr sources stdout).2 = Ok tt
  <-> Forall importable' sources.
Proof.
  revert stdout. induction sources as [|source rest IH]; intros stdout.
  - split; [constructor|done].
  - rewrite export_loop_cons, Forall_cons. unfold importable at 1.
    destruct (decide (source.1 = "Evernote_index.html")) as [Hi|Hi].
    + rewrite bool_decide_eq_true_2 by done. simpl. rewrite IH.
      split; [by intros ?; split|by intros [_ ?]].
    + rewrite bool_decide_eq_false_2 by done. simpl.
      destruct (EvernoteEntry.from_html _ _ _ _ _ _ _ source.2)
        as [entry|x] eqn:He.
      * rewrite IH. split; [intros ?; split; eauto|by intros [_ ?]].
      * simpl. split; [done|]. intros [H _].
        by destruct (H Hi) as [? ?].
Qed.

Lemma export_loop_stdout sources stdout :
  exists printed_lines,
    (export_loop process_text base_convert forces_inline float_of strptime
       timezone astimezone repr sources stdout).1
    = stdout ++ printed_lines
    /\ ((export_loop process_text base_convert forces_inline float_of
           strptime timezone astimezone repr sources stdout).2 = Ok tt ->
        printed_lines = flat_map printed' sources).
Proof.
  revert stdout. induction sources as [|source rest IH]; intros stdout.
  - exists []. by rewrite app_nil_r.
  - rewrite export_loop_cons.
    change (flat_map printed' (source :: rest))
      with (printed' source ++ flat_map printed' rest).
    unfold printed at 1.
    destruct (decide (source.1 = "Evernote_index.html")) as [Hi|Hi].
    + rewrite !bool_decide_eq_true_2 by done. simpl. apply IH.
    + rewrite !bool_decide_eq_false_2 by done. simpl.
      destruct (EvernoteEntry.from_html _ _ _ _ _ _ _ source.2)
        as [entry|x] eqn:He.
      * destruct (IH (stdout ++ report repr entry)) as (ls & -> & Hls).
        exists (report repr entry ++ ls). rewrite app_assoc.
        split; [done|]. intros Hok. by rewrite Hls.
      * exists []. by rewrite app_nil_r.
Qed.

End Driver_outcome.


(** X14: [export] goes through exactly when every file other than the
    index assembles; what was printed before is never lost; and when it
    goes through, the output is, file after file in the order of the
    directory listing, the [Importing] line of the note followed by the
    line with its photos when it has some. *)
Theorem export_succeeds_iff_all_assemble :
  forall (process_text : list PageElement -> nat -> string -> string)
         (base_convert :
            list PageElement -> PageElement -> string -> bool -> string)
         (forces_inline : string -> bool)
         (float : Type) (float_of : string -> option float)
         (zone : Type) (strptime : string -> string -> option datetime)
         (timezone : string -> zone)
         (astimezone : datetime -> zone -> datetime)
         (repr : list attr_value -> string)
         (sources : list (string * list PageElement)) (stdout : list string),
    let run :=
      export_loop process_text base_convert forces_inline float_of strptime
        timezone astimezone repr sources stdout in
    (run.2 = Ok tt <->
     Forall (importable process_text base_convert forces_inline float
               float_of strptime timezone astimezone) sources)
    /\ stdout `prefix_of` run.1
    /\ (run.2 = Ok tt ->
        run.1
        = stdout
          ++ flat_map (printed process_text base_convert forces_inline
                         float_of strptime timezone astimezone repr)
               sources).
Proof.
  intros pt bc fi float float_of zone strptime timezone astimezone repr
    sources stdout. cbv zeta.
  destruct (export_loop_stdout pt bc fi float float_of zone strptime
              timezone astimezone repr sources stdout) as (ls & Hls & Hok).
  split; [apply export_loop_Ok_iff|]. split.
  - rewrite Hls. by exists ls.
  - intros H. by rewrite Hls, (Hok H).
Qed.

Lemma export_succeeds_iff_all_assemble_witness :
  (export_loop Reference.process_text Reference.base_convert
     Reference.forces_inline Reference.float_of Reference.strptime
     Reference.timezone Reference.astimezone (fun _ => "")
     [("a.html", Reference.scenario_A);
      ("Evernote_index.html", Reference.scenario_E)] []).1
  = ["Importing Trip -> 2023/01/15/2023-01-15-09-30-00-000000-GMT.md"].
Proof.
  rewrite (proj2 (proj2 (export_succeeds_iff_all_assemble
                           Reference.process_text Reference.base_convert
                           Reference.forces_inline _ Reference.float_of _
                           Reference.strptime Reference.timezone
                           Reference.astimezone (fun _ => "")
                           [("a.html", Reference.scenario_A);
                            ("Evernote_index.html", Reference.scenario_E)]
                           []))).
  - vm_compute. reflexivity.
  - vm_compute. reflexivity.
Defined.


